(** * Jina Reader MCP server: the cache, the upstream client, the formatter
      and the tool handlers of [src/index.ts], embedded in Rocq.

    The program is TypeScript running on Node.  The embedding keeps its
    shape:

    - a JavaScript string is the list of its UTF-16 code units, so that
      [length] is the [.length] of the source;
    - a JavaScript number is modelled by an integer ([Z]); the model covers
      the integer-valued numbers, the ones for which [Number::toString]
      prints plain decimal digits and [+] is exact;
    - the value that [response.json()] yields (typed [any] in the source) is
      a JSON tree; [undefined] is [None];
    - a statement that can throw returns a completion: a value or an
      exception; the code that reads the clock, the environment, the cache
      and the network runs in a state-and-exception monad over an explicit
      world;
    - one invocation runs at a time: the interleaving of concurrent
      invocations at their [await] points is not modelled. *)

From Stdlib Require Import ZArith NArith List Ascii String Decimal DecimalZ Lia.
From stdpp Require Import base option list gmap.
Import ListNotations.

Local Open Scope Z_scope.
Set Warnings "-register-all".

(* ================================================================== *)
(** ** JavaScript strings *)
(* ================================================================== *)

(** A string is its sequence of UTF-16 code units. *)
Abbreviation jsstring := (list N).

(** A literal of the source, written as a Rocq string. *)
Definition lit (s : string) : jsstring :=
  map N_of_ascii (list_ascii_of_string s).
Arguments lit s%_string.

(** The escape [\n] of the source literals. *)
Definition nl : jsstring := [10%N].

(** [s.length] *)
Definition str_length (s : jsstring) : Z := Z.of_nat (length s).

(** [String.prototype.substring(start, end)]: both indices are clamped to
    [0, length] and swapped when out of order. *)
Definition substring (s : jsstring) (start finish : Z) : jsstring :=
  let len := str_length s in
  let a := Z.min (Z.max start 0) len in
  let b := Z.min (Z.max finish 0) len in
  let lo := Z.min a b in
  let hi := Z.max a b in
  take (Z.to_nat (hi - lo)) (drop (Z.to_nat lo) s).

(** WhiteSpace and LineTerminator code units, the ones [trim] strips. *)
Definition is_whitespace (c : N) : bool :=
  ((9 <=? c) && (c <=? 13) || (c =? 32) || (c =? 160) || (c =? 5760)
   || (8192 <=? c) && (c <=? 8202) || (c =? 8232) || (c =? 8233)
   || (c =? 8239) || (c =? 8287) || (c =? 12288) || (c =? 65279))%N.

Fixpoint trim_start (s : jsstring) : jsstring :=
  match s with
  | c :: tl => if is_whitespace c then trim_start tl else s
  | [] => []
  end.

(** [String.prototype.trim] *)
Definition trim (s : jsstring) : jsstring :=
  rev (trim_start (rev (trim_start s))).

(** Decimal digits of an unsigned decimal numeral. *)
Fixpoint digits (u : Decimal.uint) : jsstring :=
  match u with
  | Nil => []
  | D0 u => 48%N :: digits u
  | D1 u => 49%N :: digits u
  | D2 u => 50%N :: digits u
  | D3 u => 51%N :: digits u
  | D4 u => 52%N :: digits u
  | D5 u => 53%N :: digits u
  | D6 u => 54%N :: digits u
  | D7 u => 55%N :: digits u
  | D8 u => 56%N :: digits u
  | D9 u => 57%N :: digits u
  end.

(** [Number::toString] on an integer: the decimal digits, with a leading
    minus sign below zero.  This is what a template literal and
    [JSON.stringify] print for a number. *)
Definition number_to_string (n : Z) : jsstring :=
  match Z.to_int n with
  | Decimal.Pos u => digits u
  | Decimal.Neg u => 45%N :: digits u
  end.

(* ================================================================== *)
(** ** Exceptions and completions *)
(* ================================================================== *)

(** The thrown values.  All of them are instances of [Error] and carry a
    [message]:
    - [Error]: thrown by the source itself ([throw new Error(...)]);
    - [TypeError]: thrown by the runtime;
    - [FetchError]: a rejection of [fetch] or of [response.json()]. *)
Inductive exn : Type :=
  | Error (msg : jsstring)
  | TypeError (msg : jsstring)
  | FetchError (msg : jsstring).

(** [error.message] *)
Definition message (e : exn) : jsstring :=
  match e with
  | Error m | TypeError m | FetchError m => m
  end.

(** The outcome of evaluating a piece of code that may throw. *)
Inductive completion (A : Type) : Type :=
  | Normal (a : A)
  | Throw (e : exn).
Arguments Normal {A} a.
Arguments Throw {A} e.

#[global] Instance completion_ret : MRet completion := fun A a => Normal a.
#[global] Instance completion_bind : MBind completion := fun A B f m =>
  match m with
  | Normal a => f a
  | Throw e => Throw e
  end.

(* ================================================================== *)
(** ** JSON values with the JavaScript operations the source applies *)
(* ================================================================== *)

(** What [JSON.parse] can build.  An object lists its own properties in the
    order in which [Object.keys] and [Object.entries] enumerate them; no two
    of them have the same name. *)
Inductive json : Type :=
  | JNull
  | JBool (b : bool)
  | JNum (n : Z)
  | JStr (s : jsstring)
  | JArr (elems : list json)
  | JObj (props : list (jsstring * json)).

(** A value of type [any] reaching the formatter: a JSON value or
    [undefined]. *)
Abbreviation any := (option json).

(** First property with the given name. *)
Fixpoint own_property (props : list (jsstring * json)) (k : jsstring) : any :=
  match props with
  | [] => None
  | (k', v) :: tl => if decide (k' = k) then Some v else own_property tl k
  end.

(** Truthiness: the test of [if (v)], [v && ...] and [v || ...]. *)
Definition truthy (v : any) : bool :=
  match v with
  | None | Some JNull => false
  | Some (JBool b) => b
  | Some (JNum n) => negb (n =? 0)
  | Some (JStr s) => match s with [] => false | _ => true end
  | Some (JArr _) | Some (JObj _) => true
  end.

(** Message of the runtime on [null.k] and [undefined.k]. *)
Definition cannot_read (what k : jsstring) : jsstring :=
  lit "Cannot read properties of " ++ what ++ lit " (reading '" ++ k ++ lit "')".

(** [v.k], for the property names the source reads ([data], [title],
    [description], [content], [links], [warning], [usage], [tokens]).  None
    of them is an array index, [length], or a member of a built-in prototype,
    so a primitive or an array answers [undefined] and an object answers with
    its own property. *)
Definition get (v : any) (k : jsstring) : completion any :=
  match v with
  | None => Throw (TypeError (cannot_read (lit "undefined") k))
  | Some JNull => Throw (TypeError (cannot_read (lit "null") k))
  | Some (JObj props) => Normal (own_property props k)
  | Some _ => Normal None
  end.

(** [ToString] of a JSON value, as a template literal applies it.  An array
    goes through [Array.prototype.join], which prints [null] elements as the
    empty string; an object prints as [[object Object]] unless it has an own
    (hence not callable) [toString] property, where the conversion to a
    primitive fails. *)
Fixpoint to_string (v : json) : completion jsstring :=
  match v with
  | JNull => Normal (lit "null")
  | JBool true => Normal (lit "true")
  | JBool false => Normal (lit "false")
  | JNum n => Normal (number_to_string n)
  | JStr s => Normal s
  | JArr elems =>
      (fix join (l : list json) : completion jsstring :=
         match l with
         | [] => Normal []
         | e :: tl =>
             match (match e with JNull => Normal [] | _ => to_string e end) with
             | Throw x => Throw x
             | Normal s =>
                 match tl with
                 | [] => Normal s
                 | _ => match join tl with
                        | Throw x => Throw x
                        | Normal r => Normal (s ++ lit "," ++ r)
                        end
                 end
             end
         end) elems
  | JObj props =>
      match own_property props (lit "toString") with
      | Some _ => Throw (TypeError (lit "Cannot convert object to primitive value"))
      | None => Normal (lit "[object Object]")
      end
  end.

(** A substitution [${v}] of a template literal. *)
Definition template (v : any) : completion jsstring :=
  match v with
  | None => Normal (lit "undefined")
  | Some j => to_string j
  end.

(** [v.trim()] where [v] is truthy: only a string has the method. *)
Definition call_trim (expr : jsstring) (v : any) : completion jsstring :=
  match v with
  | Some (JStr s) => Normal (trim s)
  | None => Throw (TypeError (cannot_read (lit "undefined") (lit "trim")))
  | Some JNull => Throw (TypeError (cannot_read (lit "null") (lit "trim")))
  | Some _ => Throw (TypeError (expr ++ lit ".trim is not a function"))
  end.

(** Index keys [0], [1], ... of a string or an array. *)
Fixpoint indexed {A : Type} (i : nat) (l : list A) : list (jsstring * A) :=
  match l with
  | [] => []
  | x :: tl => (number_to_string (Z.of_nat i), x) :: indexed (S i) tl
  end.

(** Own enumerable string-keyed properties of a value coerced to an
    object. *)
Definition own_entries (j : json) : list (jsstring * json) :=
  match j with
  | JNull | JBool _ | JNum _ => []
  | JStr s => indexed 0 (map (fun c => JStr [c]) s)
  | JArr elems => indexed 0 elems
  | JObj props => props
  end.

Definition cannot_convert : exn :=
  TypeError (lit "Cannot convert undefined or null to object").

(** [Object.entries(v)] *)
Definition Object_entries (v : any) : completion (list (jsstring * json)) :=
  match v with
  | None | Some JNull => Throw cannot_convert
  | Some j => Normal (own_entries j)
  end.

(** [Object.keys(v)] *)
Definition Object_keys (v : any) : completion (list jsstring) :=
  entries ← Object_entries v; mret (map fst entries).

(* ================================================================== *)
(** ** The response formatter *)
(* ================================================================== *)

(** The loop [for (const [text, url] of Object.entries(data.links))]. *)
Fixpoint links_loop (entries : list (jsstring * json)) (output : jsstring)
  : completion jsstring :=
  match entries with
  | [] => mret output
  | (text, url) :: tl =>
      u ← to_string url;
      links_loop tl (output ++ lit "- [" ++ text ++ lit "](" ++ u ++ lit ")" ++ nl)
  end.

Definition no_content : jsstring :=
  lit "No content extracted or unexpected response format.".

(** First half of [formatJinaResponse]: the text assembled from the
    payload, before the length limit is applied. *)
Definition assemble (result : json) : completion jsstring :=
  let output : jsstring := [] in
  data ← get (Some result) (lit "data");
  if truthy data then
    title ← get data (lit "title");
    output ← (if truthy title
              then t ← template title; mret (output ++ lit "# " ++ t ++ nl ++ nl)
              else mret output);
    description ← get data (lit "description");
    shown ← (if truthy description
             then trimmed ← call_trim (lit "data.description") description;
                  mret (truthy (Some (JStr trimmed)))
             else mret false);
    output ← (if shown : bool
              then d ← template description; mret (output ++ d ++ nl ++ nl)
              else mret output);
    content ← get data (lit "content");
    output ← (if truthy content
              then c ← template content; mret (output ++ c ++ nl ++ nl)
              else mret output);
    links ← get data (lit "links");
    listed ← (if truthy links
              then keys ← Object_keys links; mret (0 <? Z.of_nat (length keys))
              else mret false);
    output ← (if listed : bool
              then entries ← Object_entries links;
                   output ← links_loop entries (output ++ lit "## Links" ++ nl ++ nl);
                   mret (output ++ nl)
              else mret output);
    warning ← get data (lit "warning");
    output ← (if truthy warning
              then w ← template warning;
                   mret (output ++ lit "> Warning: " ++ w ++ nl ++ nl)
              else mret output);
    usage ← get data (lit "usage");
    tokens ← (if truthy usage then get usage (lit "tokens") else mret usage);
    output ← (if truthy tokens
              then t ← template tokens;
                   mret (output ++ lit "*Used " ++ t ++ lit " tokens*" ++ nl)
              else mret output);
    mret output
  else
    mret no_content.

Definition defaultMaxLength : Z := 20000.

(** [max_length || defaultMaxLength]: [undefined] and [0] are falsy, every
    other number is truthy. *)
Definition effectiveMaxLength (max_length : option Z) : Z :=
  match max_length with
  | Some n => if n =? 0 then defaultMaxLength else n
  | None => defaultMaxLength
  end.

(** Second half of [formatJinaResponse]: the length limit and the pagination
    trailer. *)
Definition paginate (output : jsstring) (max_length : option Z) (start_index : Z)
  : jsstring :=
  let effectiveMaxLength := effectiveMaxLength max_length in
  let startPosition := start_index in
  if str_length output >? effectiveMaxLength then
    let totalLength := str_length output in
    let endPosition := startPosition + effectiveMaxLength in
    substring output 0 effectiveMaxLength
      ++ nl ++ nl ++ lit "---" ++ nl
      ++ lit "[PAGINATION INFO]" ++ nl
      ++ lit "- Content clipped: Currently showing characters "
      ++ number_to_string startPosition ++ lit "-" ++ number_to_string endPosition
      ++ lit " of approximately " ++ number_to_string totalLength ++ lit " total" ++ nl
      ++ lit "- To view the next section, use start_index="
      ++ number_to_string endPosition ++ lit " with the same max_length" ++ nl
      ++ lit "- Complete content can be accessed by making multiple paginated requests" ++ nl
  else if startPosition >? 0 then
    output
      ++ nl ++ nl ++ lit "---" ++ nl
      ++ lit "[PAGINATION INFO]" ++ nl
      ++ lit "- Showing characters " ++ number_to_string startPosition ++ lit "-"
      ++ number_to_string (startPosition + str_length output)
      ++ lit " of the document" ++ nl
      ++ lit "- This appears to be the end of the content" ++ nl
  else
    output.

(** [formatJinaResponse(result, max_length?, start_index = 0)] *)
Definition formatJinaResponse (result : json) (max_length : option Z)
    (start_index : option Z) : completion jsstring :=
  let start_index := default 0 start_index in
  output ← assemble result;
  mret (paginate output max_length start_index).

(* ================================================================== *)
(** ** [JSON.stringify] *)
(* ================================================================== *)

Definition is_high_surrogate (c : N) : bool := ((55296 <=? c) && (c <=? 56319))%N.
Definition is_low_surrogate (c : N) : bool := ((56320 <=? c) && (c <=? 57343))%N.
Definition is_surrogate (c : N) : bool := ((55296 <=? c) && (c <=? 57343))%N.

(** One lowercase hexadecimal digit. *)
Definition hex_digit (d : N) : N := (if d <? 10 then 48 + d else 87 + d)%N.

(** [UnicodeEscape]: a backslash, [u] and four hexadecimal digits. *)
Definition unicode_escape (c : N) : jsstring :=
  [92; 117; hex_digit ((c / 4096) mod 16); hex_digit ((c / 256) mod 16);
   hex_digit ((c / 16) mod 16); hex_digit (c mod 16)]%N.

(** [QuoteJSONString] on one code point that is a single code unit: the
    short escapes, a unicode escape for the other control characters and for
    a lone surrogate, the unit itself otherwise. *)
Definition quote_unit (c : N) : jsstring :=
  (if c =? 8 then [92; 98]
   else if c =? 9 then [92; 116]
   else if c =? 10 then [92; 110]
   else if c =? 12 then [92; 102]
   else if c =? 13 then [92; 114]
   else if c =? 34 then [92; 34]
   else if c =? 92 then [92; 92]
   else if (c <? 32) || is_surrogate c then unicode_escape c
   else [c])%N.

(** The code points of the string in turn: a high surrogate followed by a
    low one is one code point and is copied, every other unit stands
    alone. *)
Fixpoint quote_body (s : jsstring) : jsstring :=
  match s with
  | [] => []
  | c :: tl =>
      match tl with
      | d :: tl' =>
          if is_high_surrogate c && is_low_surrogate d
          then c :: d :: quote_body tl'
          else quote_unit c ++ quote_body tl
      | [] => quote_unit c
      end
  end.

(** [QuoteJSONString] *)
Definition quote (s : jsstring) : jsstring := 34%N :: quote_body s ++ [34%N].

(** [JSON.stringify(v)] without indentation.  No JSON value has a callable
    [toJSON], so the value is printed as it is. *)
Fixpoint JSON_stringify (v : json) : jsstring :=
  match v with
  | JNull => lit "null"
  | JBool true => lit "true"
  | JBool false => lit "false"
  | JNum n => number_to_string n
  | JStr s => quote s
  | JArr elems =>
      lit "["
        ++ (fix go (l : list json) : jsstring :=
              match l with
              | [] => []
              | e :: tl =>
                  JSON_stringify e
                    ++ match tl with [] => [] | _ => lit "," ++ go tl end
              end) elems
        ++ lit "]"
  | JObj props =>
      lit "{"
        ++ (fix go (l : list (jsstring * json)) : jsstring :=
              match l with
              | [] => []
              | (k, x) :: tl =>
                  quote k ++ lit ":" ++ JSON_stringify x
                    ++ match tl with [] => [] | _ => lit "," ++ go tl end
              end) props
        ++ lit "}"
  end.

(** An object literal whose property values may be [undefined]. *)
Abbreviation object_literal := (list (jsstring * any)).

(** The properties of an object literal that [JSON.stringify] prints: the
    ones whose value is not [undefined]. *)
Definition defined_props (o : object_literal) : list (jsstring * json) :=
  omap (fun kv => pair (fst kv) <$> snd kv) o.

(** [JSON.stringify] of an object literal. *)
Definition JSON_stringify_literal (o : object_literal) : jsstring :=
  JSON_stringify (JObj (defined_props o)).

(** [{ ...v }]: the own enumerable properties of [v]. *)
Definition spread (v : json) : list (jsstring * json) := own_entries v.

(** [o.k = v] *)
Fixpoint set_property (o : list (jsstring * json)) (k : jsstring) (v : json)
  : list (jsstring * json) :=
  match o with
  | [] => [(k, v)]
  | (k', v') :: tl =>
      if decide (k' = k) then (k', v) :: tl else (k', v') :: set_property tl k v
  end.

(* ================================================================== *)
(** ** The world: environment, clock, cache, network, console *)
(* ================================================================== *)

(** [type JinaEngineType] *)
Inductive JinaEngineType : Type :=
  | none
  | direct
  | browser
  | cf_browser_rendering.

(** The string each engine is. *)
Definition engine_string (e : JinaEngineType) : jsstring :=
  match e with
  | none => lit "none"
  | direct => lit "direct"
  | browser => lit "browser"
  | cf_browser_rendering => lit "cf-browser-rendering"
  end.

(** [interface CacheEntry] *)
Record CacheEntry : Type := { data : json; timestamp : Z }.

(** [const CACHE_TTL], in milliseconds. *)
Definition CACHE_TTL : Z := 3 * 60 * 60 * 1000.

(** The argument of [fetch]. *)
Record Request : Type := {
  url : jsstring;
  method : jsstring;
  headers : list (jsstring * jsstring);
  body : jsstring
}.

(** What [fetch] resolves to: the status and what [response.json()] will
    yield, a parsed value or a rejection. *)
Record Response : Type := { status : Z; json_result : completion json }.

(** [response.ok] *)
Definition ok (r : Response) : bool := (200 <=? status r) && (status r <=? 299).

(** What is outside the program: the environment variable and the upstream
    service.  The service answers a request, given the requests sent before
    and the time, with the time the exchange takes and its outcome. *)
Record Env : Type := {
  JINA_API_KEY : option jsstring;
  upstream : list Request -> Z -> Request -> Z * completion Response
}.

(** The mutable state: the module-level [cache] (an object used as a map
    from key to entry; a key starts with a brace, so it is never the name of
    a member of [Object.prototype]), the clock that [Date.now()] reads, the
    requests sent so far, and the lines written by [console.error]. *)
Record World : Type := {
  cache : gmap jsstring CacheEntry;
  clock : Z;
  sent : list Request;
  stderr : list (jsstring * option exn)
}.

(** Computations of the program. *)
Definition M (A : Type) : Type := Env -> World -> completion A * World.

#[global] Instance M_ret : MRet M := fun A a _ w => (Normal a, w).
#[global] Instance M_bind : MBind M := fun A B f m env w =>
  match m env w with
  | (Normal a, w') => f a env w'
  | (Throw e, w') => (Throw e, w')
  end.

Definition throw {A : Type} (e : exn) : M A := fun _ w => (Throw e, w).

(** [try { m } catch (error) { handler error }] *)
Definition try_catch {A : Type} (m : M A) (handler : exn -> M A) : M A :=
  fun env w =>
    match m env w with
    | (Normal a, w') => (Normal a, w')
    | (Throw e, w') => handler e env w'
    end.

(** A pure step that may throw. *)
Definition lift {A : Type} (c : completion A) : M A := fun _ w => (c, w).

(** [process.env.JINA_API_KEY] *)
Definition getenv_JINA_API_KEY : M (option jsstring) :=
  fun env w => (Normal (JINA_API_KEY env), w).

(** [Date.now()] *)
Definition Date_now : M Z := fun _ w => (Normal (clock w), w).

(** [cache[key]] *)
Definition cache_get (key : jsstring) : M (option CacheEntry) :=
  fun _ w => (Normal (cache w !! key), w).

(** [delete cache[key]] *)
Definition cache_delete (key : jsstring) : M unit :=
  fun _ w =>
    (Normal tt,
     {| cache := delete key (cache w); clock := clock w; sent := sent w;
        stderr := stderr w |}).

(** [cache[key] = entry] *)
Definition cache_set (key : jsstring) (entry : CacheEntry) : M unit :=
  fun _ w =>
    (Normal tt,
     {| cache := <[key := entry]> (cache w); clock := clock w; sent := sent w;
        stderr := stderr w |}).

(** [console.error(text)] and [console.error(text, error)] *)
Definition console_error (text : jsstring) (error : option exn) : M unit :=
  fun _ w =>
    (Normal tt,
     {| cache := cache w; clock := clock w; sent := sent w;
        stderr := stderr w ++ [(text, error)] |}).

(** [await fetch(url, { method, headers, body })]: the request leaves, time
    passes, the upstream outcome comes back. *)
Definition fetch (request : Request) : M Response :=
  fun env w =>
    let '(elapsed, outcome) := upstream env (sent w) (clock w) request in
    (outcome,
     {| cache := cache w; clock := clock w + elapsed;
        sent := sent w ++ [request]; stderr := stderr w |}).

(* ================================================================== *)
(** ** The upstream client *)
(* ================================================================== *)

(** [!apiKey] is false exactly on a non-empty string. *)
Definition truthy_string (s : option jsstring) : bool :=
  match s with
  | Some (_ :: _) => true
  | _ => false
  end.

Definition not_configured : exn :=
  Error (lit "JINA_API_KEY not configured. Please set it in your .env file.").

(** [JSON.stringify({ params, engine, max_length, start_index })] *)
Definition cacheKey (params : json) (engine : JinaEngineType)
    (max_length start_index : option Z) : jsstring :=
  JSON_stringify_literal
    [(lit "params", Some params);
     (lit "engine", Some (JStr (engine_string engine)));
     (lit "max_length", JNum <$> max_length);
     (lit "start_index", JNum <$> start_index)].

(** The [headers] object of the request. *)
Definition request_headers (apiKey : jsstring) (engine : JinaEngineType)
  : list (jsstring * jsstring) :=
  [(lit "Accept", lit "application/json");
   (lit "Authorization", lit "Bearer " ++ apiKey);
   (lit "X-Return-Format", lit "markdown");
   (lit "X-With-Links-Summary", lit "true");
   (lit "Content-Type", lit "application/json");
   (lit "X-Cache", lit "true")]
  ++ match engine with
     | none => []
     | _ => [(lit "X-Engine", engine_string engine)]
     end.

(** [requestParams]: a copy of [params] with the length parameters that are
    not [undefined]. *)
Definition request_params (params : json) (max_length start_index : option Z)
  : list (jsstring * json) :=
  let requestParams := spread params in
  let requestParams :=
    match max_length with
    | Some n => set_property requestParams (lit "max_length") (JNum n)
    | None => requestParams
    end in
  match start_index with
  | Some n => set_property requestParams (lit "start_index") (JNum n)
  | None => requestParams
  end.

(** The one request the client sends. *)
Definition build_request (apiKey : jsstring) (params : json)
    (engine : JinaEngineType) (max_length start_index : option Z) : Request :=
  {| url := lit "https://r.jina.ai/";
     method := lit "POST";
     headers := request_headers apiKey engine;
     body := JSON_stringify (JObj (request_params params max_length start_index)) |}.

(** The cache check of [callJinaReaderAPI], [if (useCache &&
    cache[cacheKey]) { ... }]: the payload of an entry younger than the TTL,
    which the function then returns; nothing otherwise, and an entry that
    has reached the TTL is deleted. *)
Definition check_cache (useCache : bool) (cacheKey : jsstring) : M (option json) :=
  if useCache then
    found ← cache_get cacheKey;
    match found with
    | Some entry =>
        now ← Date_now;
        if now - timestamp entry <? CACHE_TTL then
          _ ← console_error (lit "Using cached result") None;
          mret (Some (data entry))
        else
          _ ← cache_delete cacheKey;
          mret None
    | None => mret None
    end
  else mret None.

(** The [try] block of [callJinaReaderAPI] and its [catch]: the request,
    the status check, the parsing, the store into the cache; a failure is
    logged and thrown again. *)
Definition call_upstream (apiKey : jsstring) (params : json)
    (engine : JinaEngineType) (max_length start_index : option Z)
    (useCache : bool) (cacheKey : jsstring) : M json :=
  try_catch
    (response ← fetch (build_request apiKey params engine max_length start_index);
     if negb (ok response) then
       throw (Error (lit "Jina API error: " ++ number_to_string (status response)))
     else
       result ← lift (json_result response);
       _ ← (if useCache then
              now ← Date_now;
              cache_set cacheKey {| data := result; timestamp := now |}
            else mret tt);
       mret result)
    (fun error =>
       _ ← console_error (lit "Jina Reader API call failed:") (Some error);
       throw error).

(** [callJinaReaderAPI(params, engine = "none", max_length?, start_index?,
    useCache = true)] *)
Definition callJinaReaderAPI (params : json) (engine : option JinaEngineType)
    (max_length start_index : option Z) (useCache : option bool) : M json :=
  let engine := default none engine in
  let useCache := default true useCache in
  apiKey ← getenv_JINA_API_KEY;
  if negb (truthy_string apiKey) then throw not_configured else
  let cacheKey := cacheKey params engine max_length start_index in
  cached ← check_cache useCache cacheKey;
  match cached with
  | Some result => mret result
  | None =>
      call_upstream (default [] apiKey) params engine max_length start_index
        useCache cacheKey
  end.

(* ================================================================== *)
(** ** The tool handlers *)
(* ================================================================== *)

(** The three tools registered with [server.tool]. *)
Inductive Tool : Type :=
  | jina_read_url
  | jina_read_html
  | jina_read_pdf.

(** The required field of each tool, which is also the only property of the
    [params] object it passes to the client. *)
Definition payload_name (t : Tool) : jsstring :=
  match t with
  | jina_read_url => lit "url"
  | jina_read_html => lit "html"
  | jina_read_pdf => lit "pdf"
  end.

(** The validated arguments a handler receives. *)
Record ToolArgs : Type := {
  arg_payload : jsstring;
  arg_engine : option JinaEngineType;
  arg_max_length : option Z;
  arg_start_index : option Z
}.

(** [{ url }], [{ html }], [{ pdf }] *)
Definition tool_params (t : Tool) (payload : jsstring) : json :=
  JObj [(payload_name t, JStr payload)].

(** The result of a tool call. *)
Record TextContent : Type := { type : jsstring; text : jsstring }.
Record CallToolResult : Type := { content : list TextContent }.

Definition text_result (s : jsstring) : CallToolResult :=
  {| content := [ {| type := lit "text"; text := s |} ] |}.

(** [start_index || 0] *)
Definition start_index_or_0 (start_index : option Z) : Z :=
  match start_index with
  | Some n => if n =? 0 then 0 else n
  | None => 0
  end.

(** The handler of a tool: the three handlers of the source differ only in
    the name of the payload field. *)
Definition tool_handler (t : Tool) (args : ToolArgs) : M CallToolResult :=
  let engine := default none (arg_engine args) in
  let max_length := arg_max_length args in
  let start_index := arg_start_index args in
  try_catch
    (result ← callJinaReaderAPI (tool_params t (arg_payload args)) (Some engine)
                max_length start_index None;
     text ← lift (formatJinaResponse result max_length
                    (Some (start_index_or_0 start_index)));
     mret (text_result text))
    (fun error => mret (text_result (lit "Error: " ++ message error))).

(* ================================================================== *)
(** ** Notions used to state the properties *)
(* ================================================================== *)

(** A decimal digit. *)
Definition is_digit (c : N) : bool := ((48 <=? c) && (c <=? 57))%N.

(** What follows a number in a key does not continue it: it starts with
    neither a digit nor a minus sign. *)
Definition ends_number (r : jsstring) : Prop :=
  match r with
  | c :: _ => is_digit c = false ∧ c ≠ 45%N
  | [] => True
  end.

(** An optional numeric property, as it is printed after another
    property. *)
Definition key_field (k : jsstring) (v : option Z) : jsstring :=
  match v with
  | Some n => 44%N :: quote k ++ 58%N :: number_to_string n
  | None => []
  end.

(** The key of a tool call, up to the payload string. *)
Definition key_head (t : Tool) : jsstring :=
  123%N :: quote (lit "params") ++ 58%N :: 123%N :: quote (payload_name t) ++ [58%N; 34%N].

(** The key of a tool call, after the payload string. *)
Definition key_tail (e : JinaEngineType) (m s : option Z) : jsstring :=
  125%N :: 44%N :: quote (lit "engine") ++ 58%N :: quote (engine_string e)
    ++ key_field (lit "max_length") m ++ key_field (lit "start_index") s
    ++ [125%N].



(** The payload of a result is missing: [result.data] is falsy. *)
Definition no_payload (result : json) : bool :=
  match get (Some result) (lit "data") with
  | Normal d => negb (truthy d)
  | Throw _ => false
  end.





(** The world with another cache. *)
Definition with_cache (c : gmap jsstring CacheEntry) (w : World) : World :=
  {| cache := c; clock := clock w; sent := sent w; stderr := stderr w |}.

(** What the client obtains from a request sent in world [w]: the parsed
    body of a response with a success status, or the failure. *)
Definition fetched (env : Env) (w : World) (request : Request) : completion json :=
  match (upstream env (sent w) (clock w) request).2 with
  | Normal response =>
      if ok response then json_result response
      else Throw (Error (lit "Jina API error: " ++ number_to_string (status response)))
  | Throw e => Throw e
  end.

(** The world after that request. *)
Definition after_fetch (env : Env) (w : World) (request : Request)
    (useCache : bool) (key : jsstring) : World :=
  let now := clock w + (upstream env (sent w) (clock w) request).1 in
  {| cache := match fetched env w request with
              | Normal result =>
                  if useCache
                  then <[key := {| data := result; timestamp := now |}]> (cache w)
                  else cache w
              | Throw _ => cache w
              end;
     clock := now;
     sent := sent w ++ [request];
     stderr := match fetched env w request with
               | Normal _ => stderr w
               | Throw e => stderr w ++ [(lit "Jina Reader API call failed:", Some e)]
               end |}.

(** Example inputs. *)

(** A world whose cache holds one entry, stored three hours ago. *)
Definition stale_world : World :=
  {| cache := {[ cacheKey (tool_params jina_read_url (lit "https://example.com"))
                   none None None
                 := {| data := JNull; timestamp := 0 |} ]};
     clock := 10800000; sent := []; stderr := [] |}.

(** A configured environment whose network is down. *)
Definition failing_env : Env :=
  {| JINA_API_KEY := Some (lit "secret");
     upstream := fun _ _ _ => (0, Throw (FetchError (lit "network down"))) |}.

(** An environment without the credential. *)
Definition unconfigured_env : Env :=
  {| JINA_API_KEY := None;
     upstream := fun _ _ _ => (0, Throw (FetchError (lit "network down"))) |}.

(** The world at start-up. *)
Definition empty_world : World :=
  {| cache := ∅; clock := 0; sent := []; stderr := [] |}.

(** Arguments with the payload only. *)
Definition example_args : ToolArgs :=
  {| arg_payload := lit "https://example.com"; arg_engine := None;
     arg_max_length := None; arg_start_index := None |}.

(* ================================================================== *)
(** ** Notions used to state further properties *)
(* ================================================================== *)

(** A text that ends with a line break. *)
Definition ends_with_nl (s : jsstring) : Prop := ∃ pre, s = pre ++ nl.

(** A text that is empty or ends with a line break. *)
Definition ends_line (s : jsstring) : Prop := s = [] ∨ ends_with_nl s.

(** A value that a template literal prints without calling into an
    object: [undefined], [null], a boolean, a number or a string. *)
Definition is_primitive (v : any) : bool :=
  match v with
  | Some (JArr _) | Some (JObj _) => false
  | _ => true
  end.

(** [v.k] where the access does not throw. *)
Definition property (v : any) (k : jsstring) : any :=
  match get v k with
  | Normal x => x
  | Throw _ => None
  end.

(** The values on which [formatJinaResponse] uses [description]: a string,
    or a falsy value. *)
Definition description_shaped (v : any) : bool :=
  match v with
  | Some (JStr _) => true
  | _ => negb (truthy v)
  end.

(** The values on which it uses [links]: falsy, or with primitive property
    values only. *)
Definition links_shaped (v : any) : bool :=
  match v with
  | Some j => negb (truthy v) || forallb (fun kv => is_primitive (Some kv.2)) (own_entries j)
  | None => true
  end.

(** The values on which it uses [usage]: falsy, or with primitive
    [tokens]. *)
Definition usage_shaped (v : any) : bool :=
  negb (truthy v) || is_primitive (property v (lit "tokens")).

(** A result the formatter can render: it is not [null], and its payload,
    when present, has primitive title, content and warning, a description,
    links and usage as above. *)
Definition well_shaped (result : json) : bool :=
  match get (Some result) (lit "data") with
  | Normal data =>
      negb (truthy data)
      || (is_primitive (property data (lit "title"))
          && description_shaped (property data (lit "description"))
          && is_primitive (property data (lit "content"))
          && links_shaped (property data (lit "links"))
          && is_primitive (property data (lit "warning"))
          && usage_shaped (property data (lit "usage")))
  | Throw _ => false
  end.

(** The line of the rendered text for one link. *)
Definition link_line (link : jsstring * jsstring) : jsstring :=
  lit "- [" ++ link.1 ++ lit "](" ++ link.2 ++ lit ")" ++ nl.

(** The [links] object of a payload whose links are the given pairs of
    text and URL. *)
Definition links_object (links : list (jsstring * jsstring)) : json :=
  JObj (map (fun link => (link.1, JStr link.2)) links).

(** A configured environment whose upstream answers every request, after
    five milliseconds, with a small payload. *)
Definition ok_env : Env :=
  {| JINA_API_KEY := Some (lit "secret");
     upstream := fun _ _ _ =>
       (5, Normal {| status := 200;
                     json_result :=
                       Normal (JObj [(lit "data",
                                      JObj [(lit "content", JStr (lit "hi"))])]) |}) |}.

(** A configured environment whose upstream answers 404. *)
Definition not_found_env : Env :=
  {| JINA_API_KEY := Some (lit "secret");
     upstream := fun _ _ _ =>
       (0, Normal {| status := 404; json_result := Normal JNull |}) |}.

(** A configured environment whose upstream answers with the body
    [null]. *)
Definition null_env : Env :=
  {| JINA_API_KEY := Some (lit "secret");
     upstream := fun _ _ _ =>
       (0, Normal {| status := 200; json_result := Normal JNull |}) |}.

(** The world [w] some milliseconds later. *)
Definition later (elapsed : Z) (w : World) : World :=
  {| cache := cache w; clock := clock w + elapsed; sent := sent w;
     stderr := stderr w |}.

(** The [params] of the example call. *)
Definition example_params : json :=
  tool_params jina_read_url (lit "https://example.com").

(* ================================================================== *)
(** ** The embedding at work *)
(* ================================================================== *)

(** The links of a payload are rendered as a list under a heading. *)
Example format_links :
  formatJinaResponse
    (JObj [(lit "data",
            JObj [(lit "links",
                   JObj [(lit "Example", JStr (lit "https://example.com"))])])])
    None None
  = Normal (lit "## Links" ++ nl ++ nl
              ++ lit "- [Example](https://example.com)" ++ nl ++ nl).
Proof. reflexivity. Qed.

(** A description of white space only is not rendered; a numeric title is
    printed in decimal. *)
Example format_title_and_blank_description :
  formatJinaResponse
    (JObj [(lit "data",
            JObj [(lit "title", JNum 42); (lit "description", JStr (lit "   "))])])
    None None
  = Normal (lit "# 42" ++ nl ++ nl).
Proof. reflexivity. Qed.

(** The runtime rejects [trim] on a description that is not a string, and
    [null.data]. *)
Example format_throws :
  formatJinaResponse (JObj [(lit "data", JObj [(lit "description", JNum 4)])]) None None
  = Throw (TypeError (lit "data.description.trim is not a function"))
  ∧ formatJinaResponse JNull None None
    = Throw (TypeError (lit "Cannot read properties of null (reading 'data')")).
Proof. split; reflexivity. Qed.

(** A short text read from a positive start gets the end-of-content
    trailer. *)
Example format_end_of_content :
  formatJinaResponse (JObj [(lit "data", JObj [(lit "content", JStr (lit "hi"))])])
    None (Some 7)
  = Normal (lit "hi" ++ nl ++ nl ++ nl ++ nl ++ lit "---" ++ nl
              ++ lit "[PAGINATION INFO]" ++ nl
              ++ lit "- Showing characters 7-11 of the document" ++ nl
              ++ lit "- This appears to be the end of the content" ++ nl).
Proof. reflexivity. Qed.

(** Quoting escapes the quotation mark, the backslash and the control
    characters, and keeps a surrogate pair but not a lone surrogate. *)
Example quote_escapes :
  quote [34; 92; 10; 1; 55357; 56832; 55357; 97]%N
  = [34%N; 92%N; 34%N] ++ lit "\\\n\u0001" ++ [55357%N; 56832%N]
      ++ lit "\ud83da" ++ [34%N].
Proof. reflexivity. Qed.

(** The key of a call without [max_length]. *)
Example cacheKey_without_max_length :
  cacheKey (tool_params jina_read_url (lit "https://example.com")) none None (Some 0)
  = lit "{" ++ quote (lit "params") ++ lit ":{" ++ quote (lit "url") ++ lit ":"
      ++ quote (lit "https://example.com") ++ lit "}," ++ quote (lit "engine")
      ++ lit ":" ++ quote (lit "none") ++ lit "," ++ quote (lit "start_index")
      ++ lit ":0}".
Proof. reflexivity. Qed.

(** A first call goes upstream and fills the cache; the same call one
    millisecond before the TTL is served from the cache. *)
Example second_call_is_cached :
  let env := {| JINA_API_KEY := Some (lit "secret");
                upstream := fun _ _ _ =>
                  (5, Normal {| status := 200; json_result := Normal (JObj []) |}) |} in
  let params := tool_params jina_read_url (lit "https://example.com") in
  let w1 := (callJinaReaderAPI params None None None None env empty_world).2 in
  let w2 := {| cache := cache w1; clock := 5 + CACHE_TTL - 1; sent := sent w1;
               stderr := stderr w1 |} in
  length (sent w1) = 1%nat
  ∧ (callJinaReaderAPI params None None None None env w2).1 = Normal (JObj [])
  ∧ length (sent (callJinaReaderAPI params None None None None env w2).2) = 1%nat.
Proof. vm_compute. done. Qed.

(* ================================================================== *)
(** ** Numbers and quoted strings are self-delimiting *)
(* ================================================================== *)

Lemma digits_delimited u : ∀ u' r r',
  ends_number r → ends_number r' →
  digits u ++ r = digits u' ++ r' → u = u' ∧ r = r'.
Proof.
  induction u as [|u IH|u IH|u IH|u IH|u IH|u IH|u IH|u IH|u IH|u IH];
    intros [|v|v|v|v|v|v|v|v|v|v] r r' Hr Hr' H; simpl in H;
    try (injection H as H; destruct (IH _ _ _ Hr Hr' H) as [-> ->]; done);
    try discriminate H;
    try done;
    subst; simpl in *; destruct Hr as [Hd _] || destruct Hr' as [Hd _]; discriminate Hd.
Qed.

Lemma number_to_string_delimited a b r r' :
  ends_number r → ends_number r' →
  number_to_string a ++ r = number_to_string b ++ r' → a = b ∧ r = r'.
Proof.
  unfold number_to_string. intros Hr Hr'.
  destruct (Z.to_int a) as [u|u] eqn:Ha, (Z.to_int b) as [v|v] eqn:Hb; simpl; intros H.
  - destruct (digits_delimited _ _ _ _ Hr Hr' H) as [-> ->]. split; [|done].
    apply DecimalZ.to_int_inj. congruence.
  - exfalso. destruct u; simpl in H; try discriminate H. subst r. by destruct Hr.
  - exfalso. destruct v; simpl in H; try discriminate H. subst r'. by destruct Hr'.
  - injection H as H. destruct (digits_delimited _ _ _ _ Hr Hr' H) as [-> ->]. split; [|done].
    apply DecimalZ.to_int_inj. congruence.
Qed.

Lemma hex_digit_inj a b : (a < 16 → b < 16 → hex_digit a = hex_digit b → a = b)%N.
Proof.
  unfold hex_digit. intros Ha Hb.
  destruct (N.ltb_spec a 10), (N.ltb_spec b 10); lia.
Qed.

Lemma div_mod_16_inj x y :
  (x / 16 = y / 16 → x mod 16 = y mod 16 → x = y)%N.
Proof.
  intros Hq Hr. rewrite (N.div_mod x 16), (N.div_mod y 16) by done. congruence.
Qed.

Lemma unicode_escape_inj c c' :
  (c < 65536 → c' < 65536 → unicode_escape c = unicode_escape c' → c = c')%N.
Proof.
  unfold unicode_escape. intros Hc Hc' H. injection H as H3 H2 H1 H0.
  apply hex_digit_inj in H3; [|apply N.mod_lt; discriminate..].
  apply hex_digit_inj in H2; [|apply N.mod_lt; discriminate..].
  apply hex_digit_inj in H1; [|apply N.mod_lt; discriminate..].
  apply hex_digit_inj in H0; [|apply N.mod_lt; discriminate..].
  change 4096%N with (16 * (16 * 16))%N in H3. change 256%N with (16 * 16)%N in H2.
  repeat rewrite <- N.Div0.div_div in H3. repeat rewrite <- N.Div0.div_div in H2.
  rewrite !(N.mod_small (_ / 16 / 16 / 16)) in H3
    by (rewrite !N.Div0.div_div; apply N.Div0.div_lt_upper_bound; assumption).
  repeat (apply div_mod_16_inj; [|assumption]). assumption.
Qed.

(** Boolean tests on code units, as arithmetic facts. *)
Ltac unit_facts :=
  repeat match goal with
    | H : (_ || _) = true |- _ => apply orb_true_iff in H as [H|H]
    | H : (_ || _) = false |- _ => apply orb_false_iff in H as [? ?]
    | H : (_ && _) = true |- _ => apply andb_true_iff in H as [? ?]
    | H : (_ && _) = false |- _ => apply andb_false_iff in H as [H|H]
    | H : (_ =? _)%N = true |- _ => apply N.eqb_eq in H
    | H : (_ =? _)%N = false |- _ => apply N.eqb_neq in H
    | H : (_ <? _)%N = true |- _ => apply N.ltb_lt in H
    | H : (_ <? _)%N = false |- _ => apply N.ltb_ge in H
    | H : (_ <=? _)%N = true |- _ => apply N.leb_le in H
    | H : (_ <=? _)%N = false |- _ => apply N.leb_gt in H
    end.

Lemma quote_unit_head c :
  ∃ h t, quote_unit c = h :: t ∧ h ≠ 34%N ∧ is_high_surrogate h = false.
Proof.
  unfold quote_unit.
  repeat (case_match; [by eexists _, _|]).
  eexists _, _. split; [done|].
  unfold is_surrogate, is_high_surrogate in *. unit_facts; split; try lia;
    apply andb_false_iff; rewrite N.leb_gt, N.leb_gt; lia.
Qed.

Lemma quote_unit_inj c c' r r' :
  quote_unit c ++ r = quote_unit c' ++ r' → c = c' ∧ r = r'.
Proof.
  unfold quote_unit.
  repeat case_match; simpl; intros Heq; simplify_eq;
    unfold is_surrogate in *; unit_facts;
    try first [lia | split; [lia|done] | done].
  all: split; [|done];
    apply unicode_escape_inj; [lia | lia | unfold unicode_escape; congruence].
Qed.

Lemma quote_body_cons c tl :
  (∃ d tl', tl = d :: tl' ∧ is_high_surrogate c = true
            ∧ quote_body (c :: tl) = c :: d :: quote_body tl')
  ∨ quote_body (c :: tl) = quote_unit c ++ quote_body tl.
Proof.
  destruct tl as [|d tl']; simpl.
  - right. by rewrite app_nil_r.
  - destruct (is_high_surrogate c) eqn:Hc, (is_low_surrogate d); simpl; eauto 10.
Qed.

Lemma quote_body_open c tl x r : quote_body (c :: tl) ++ x ≠ 34%N :: r.
Proof.
  destruct (quote_body_cons c tl) as [(d & tl' & -> & Hc & ->)| ->].
  - simpl. intros [= -> _]. done.
  - destruct (quote_unit_head c) as (h & t & -> & Hh & _). simpl. congruence.
Qed.

(** A quoted string is self-delimiting: its closing quotation mark is the
    first one that is not escaped. *)
Lemma quote_body_delimited_lt n : ∀ s s' r r',
  (length s < n)%nat →
  quote_body s ++ 34%N :: r = quote_body s' ++ 34%N :: r' → s = s' ∧ r = r'.
Proof.
  induction n as [|n IH]; intros s s' r r' Hlen Heq; [lia|].
  destruct s as [|c tl], s' as [|c' tl'].
  - simpl in Heq. by simplify_eq.
  - symmetry in Heq. by apply quote_body_open in Heq.
  - by apply quote_body_open in Heq.
  - destruct (quote_body_cons c tl) as [(d & t & -> & Hc & Hq)|Hq],
      (quote_body_cons c' tl') as [(d' & t' & -> & Hc' & Hq')|Hq'];
      rewrite Hq, Hq' in Heq; clear Hq Hq'.
    + simpl in Heq. injection Heq as -> -> Heq.
      apply IH in Heq as [-> ->]; [done|simpl in *; lia].
    + destruct (quote_unit_head c') as (h & x & Hx & _ & Hh).
      rewrite Hx in Heq. simpl in Heq. injection Heq as -> _. congruence.
    + destruct (quote_unit_head c) as (h & x & Hx & _ & Hh).
      rewrite Hx in Heq. simpl in Heq. injection Heq as -> _. congruence.
    + rewrite <- !app_assoc in Heq. apply quote_unit_inj in Heq as [-> Heq].
      apply IH in Heq as [-> ->]; [done|simpl in *; lia].
Qed.

Lemma quote_body_delimited s s' r r' :
  quote_body s ++ 34%N :: r = quote_body s' ++ 34%N :: r' → s = s' ∧ r = r'.
Proof. apply (quote_body_delimited_lt (S (length s))). lia. Qed.

(* ================================================================== *)
(** ** The cache key determines the request *)
(* ================================================================== *)

Lemma cacheKey_shape t u e m s :
  cacheKey (tool_params t u) e m s
  = key_head t ++ quote_body u ++ 34%N :: key_tail e m s.
Proof.
  unfold cacheKey, JSON_stringify_literal, tool_params, key_head, key_tail, key_field.
  destruct m, s; simpl; repeat (rewrite <- ?app_assoc; simpl); reflexivity.
Qed.


(** Evaluate the closed literals of a hypothesis to lists of code units. *)
Ltac eval_literals H :=
  repeat match type of H with
    | context [quote (lit ?s)] =>
        let v := eval vm_compute in (quote (lit s)) in
        change (quote (lit s)) with v in H
    | context [lit ?s] =>
        let v := eval vm_compute in (lit s) in
        change (lit s) with v in H
    end;
  cbn [app] in H.

Lemma ends_number_brace r : ends_number (125%N :: r).
Proof. by split. Qed.

Lemma ends_number_comma r : ends_number (44%N :: r).
Proof. by split. Qed.

#[local] Hint Resolve ends_number_brace ends_number_comma : core.

Lemma key_field_start_inj s s' :
  key_field (lit "start_index") s ++ [125%N]
  = key_field (lit "start_index") s' ++ [125%N] → s = s'.
Proof.
  unfold key_field. destruct s as [a|], s' as [b|]; intros H;
    eval_literals H; try discriminate H; [|done].
  simplify_eq. rewrite <- ?app_assoc in *.
  match goal with
  | H : number_to_string _ ++ _ = _ |- _ =>
      apply number_to_string_delimited in H as [-> _]; auto
  end.
Qed.

Lemma key_fields_inj m s m' s' :
  key_field (lit "max_length") m ++ key_field (lit "start_index") s ++ [125%N]
  = key_field (lit "max_length") m' ++ key_field (lit "start_index") s' ++ [125%N] →
  m = m' ∧ s = s'.
Proof.
  destruct m as [a|], m' as [b|]; unfold key_field at 1 3; intros H.
  - eval_literals H. simplify_eq. rewrite <- ?app_assoc in *.
    match goal with
    | H : number_to_string _ ++ _ = _ |- _ =>
        apply number_to_string_delimited in H as [-> H]
    end.
    + by apply key_field_start_inj in H as ->.
    + destruct s; simpl; auto.
    + destruct s'; simpl; auto.
  - exfalso. destruct s'; unfold key_field in H; eval_literals H; discriminate H.
  - exfalso. destruct s; unfold key_field in H; eval_literals H; discriminate H.
  - simpl in H. by apply key_field_start_inj in H as ->.
Qed.

Lemma key_head_inj t t' x x' :
  key_head t ++ x = key_head t' ++ x' → t = t' ∧ x = x'.
Proof.
  unfold key_head. destruct t, t'; intros H; unfold payload_name in H;
    eval_literals H; by simplify_eq.
Qed.

Lemma key_tail_inj e m s e' m' s' :
  key_tail e m s = key_tail e' m' s' → e = e' ∧ m = m' ∧ s = s'.
Proof.
  unfold key_tail. intros H.
  cut (e = e' ∧
       key_field (lit "max_length") m ++ key_field (lit "start_index") s ++ [125%N]
       = key_field (lit "max_length") m' ++ key_field (lit "start_index") s' ++ [125%N]).
  { intros [-> H']. by apply key_fields_inj in H' as [-> ->]. }
  revert H. generalize (key_field (lit "max_length") m ++ key_field (lit "start_index") s ++ [125%N]).
  generalize (key_field (lit "max_length") m' ++ key_field (lit "start_index") s' ++ [125%N]).
  intros x' x H. destruct e, e'; unfold engine_string in H; eval_literals H; by simplify_eq.
Qed.

(** The key determines the request: tool, payload, engine, both length
    parameters, and whether each of them was given. *)
Lemma cacheKey_inj t u e m s t' u' e' m' s' :
  cacheKey (tool_params t u) e m s = cacheKey (tool_params t' u') e' m' s' →
  t = t' ∧ u = u' ∧ e = e' ∧ m = m' ∧ s = s'.
Proof.
  rewrite !cacheKey_shape. intros H.
  apply key_head_inj in H as [-> H].
  apply quote_body_delimited in H as [-> H].
  apply key_tail_inj in H as (-> & -> & ->). done.
Qed.

(* ================================================================== *)
(** ** The formatter: assembled text and pagination *)
(* ================================================================== *)



Lemma paginate_whole output max_length start_index :
  str_length output <= effectiveMaxLength max_length →
  start_index <= 0 →
  paginate output max_length start_index = output.
Proof.
  intros Hle Hs. unfold paginate.
  destruct (Z.gtb_spec (str_length output) (effectiveMaxLength max_length)); [lia|].
  destruct (Z.gtb_spec start_index 0); [lia|done].
Qed.


Lemma formatJinaResponse_assembled result max_length start_index output :
  assemble result = Normal output →
  formatJinaResponse result max_length start_index
  = Normal (paginate output max_length (default 0 start_index)).
Proof. unfold formatJinaResponse. by intros ->. Qed.

Lemma assemble_no_payload result :
  no_payload result = true → assemble result = Normal no_content.
Proof.
  unfold no_payload, assemble.
  destruct (get (Some result) (lit "data")) as [d|]; [|done].
  simpl. by destruct (truthy d).
Qed.

(** Either nothing is appended, or the result is longer than the
    no-content literal: each trailer alone is. *)
Lemma paginate_cases output max_length start_index :
  (str_length output <= effectiveMaxLength max_length ∧ start_index <= 0
   ∧ paginate output max_length start_index = output)
  ∨ str_length no_content < str_length (paginate output max_length start_index).
Proof.
  unfold paginate.
  destruct (Z.gtb_spec (str_length output) (effectiveMaxLength max_length));
    [right|destruct (Z.gtb_spec start_index 0); [right|by left]];
    unfold str_length; rewrite !length_app;
    repeat match goal with
      | |- context [length (lit ?s)] =>
          let n := eval vm_compute in (length (lit s)) in
          change (length (lit s)) with n
      end;
    change (length nl) with 1%nat; change (length no_content) with 51%nat; lia.
Qed.

#[local] Arguments lit : simpl never.







(** C2, as the code has it.  Without a payload the assembled text is the
    no-content literal, and the length limit and the trailers apply to it as
    to any other text: the formatter returns exactly the literal if and only
    if [start_index] is not positive and the window holds the 51 characters
    of the literal. *)
Theorem no_payload_literal
    (result : json) (max_length start_index : option Z) :
  no_payload result = true →
  formatJinaResponse result max_length start_index = Normal no_content
  ↔ default 0 start_index <= 0
    ∧ str_length no_content <= effectiveMaxLength max_length.
Proof.
  intros Hno.
  rewrite (formatJinaResponse_assembled _ _ _ _ (assemble_no_payload _ Hno)).
  split.
  - intros [= H].
    destruct (paginate_cases no_content max_length (default 0 start_index))
      as [(? & ? & _)|Hlonger]; [done|].
    rewrite H in Hlonger. lia.
  - intros [? ?]. by rewrite paginate_whole.
Qed.

Lemma no_payload_literal_witness :
  no_payload (JObj []) = true
  ∧ formatJinaResponse (JObj []) (Some 51) (Some 0) = Normal no_content.
Proof.
  split; [reflexivity|].
  apply (proj2 (no_payload_literal (JObj []) (Some 51) (Some 0) eq_refl)).
  split; vm_compute; discriminate.
Defined.

(** C2 as stated fails: a window shorter than the literal clips it, and a
    positive [start_index] appends the end-of-content trailer. *)
Lemma no_payload_counterexample :
  no_payload (JObj []) = true
  ∧ formatJinaResponse (JObj []) (Some 10) (Some 0) ≠ Normal no_content
  ∧ formatJinaResponse (JObj []) None (Some 5) ≠ Normal no_content.
Proof.
  split; [reflexivity|]. split; vm_compute; discriminate.
Qed.




(** C8.  The formatter is a function of its three arguments alone: in any
    two worlds (clock, cache, network history, console, environment) the
    formatting step of a handler yields the same completion, and it leaves
    the world as it found it. *)
Theorem formatJinaResponse_pure
    (result : json) (max_length start_index : option Z)
    (env1 env2 : Env) (w1 w2 : World) :
  (lift (formatJinaResponse result max_length start_index) env1 w1).1
  = (lift (formatJinaResponse result max_length start_index) env2 w2).1
  ∧ (lift (formatJinaResponse result max_length start_index) env1 w1).2 = w1
  ∧ (lift (formatJinaResponse result max_length start_index) env1 w1).1
    = formatJinaResponse result max_length start_index.
Proof. done. Qed.




(* ================================================================== *)
(** ** The cache and the upstream client *)
(* ================================================================== *)

(** The environment is fixed during a run. *)
Section upstream_client.

Context (env : Env).
Implicit Types (w : World) (key : jsstring) (entry : CacheEntry).

Lemma check_cache_hit key entry w :
  cache w !! key = Some entry →
  clock w - timestamp entry < CACHE_TTL →
  check_cache true key env w
  = (Normal (Some (data entry)),
     {| cache := cache w; clock := clock w; sent := sent w;
        stderr := stderr w ++ [(lit "Using cached result", None)] |}).
Proof.
  intros Hfound Hlive. unfold check_cache, mbind, M_bind, cache_get. rewrite Hfound.
  simpl. destruct (Z.ltb_spec (clock w - timestamp entry) CACHE_TTL); [done|lia].
Qed.

Lemma check_cache_expired key entry w :
  cache w !! key = Some entry →
  CACHE_TTL <= clock w - timestamp entry →
  check_cache true key env w = (Normal None, with_cache (delete key (cache w)) w).
Proof.
  intros Hfound Hold. unfold check_cache, mbind, M_bind, cache_get. rewrite Hfound.
  simpl. destruct (Z.ltb_spec (clock w - timestamp entry) CACHE_TTL); [lia|done].
Qed.

Lemma check_cache_absent key w :
  cache w !! key = None → check_cache true key env w = (Normal None, w).
Proof.
  intros Hfound. unfold check_cache, mbind, M_bind, cache_get. by rewrite Hfound.
Qed.

Lemma check_cache_disabled key w :
  check_cache false key env w = (Normal None, w).
Proof. done. Qed.

Lemma call_upstream_spec apiKey params engine max_length start_index useCache key w :
  let request := build_request apiKey params engine max_length start_index in
  call_upstream apiKey params engine max_length start_index useCache key env w
  = (fetched env w request, after_fetch env w request useCache key).
Proof.
  intros request.
  unfold call_upstream, try_catch, mbind, M_bind, fetch, fetched, after_fetch, fetched.
  fold request.
  destruct (upstream env (sent w) (clock w) request) as [elapsed [response|e]]; simpl;
    [|done].
  destruct (ok response); simpl; [|done].
  destruct (json_result response) as [result|e]; simpl; [|done].
  by destruct useCache.
Qed.

Lemma callJinaReaderAPI_not_configured params engine max_length start_index useCache w :
  truthy_string (JINA_API_KEY env) = false →
  callJinaReaderAPI params engine max_length start_index useCache env w
  = (Throw not_configured, w).
Proof.
  intros Hkey. unfold callJinaReaderAPI, mbind, M_bind, getenv_JINA_API_KEY.
  by rewrite Hkey.
Qed.

Lemma callJinaReaderAPI_configured params engine max_length start_index useCache w :
  truthy_string (JINA_API_KEY env) = true →
  callJinaReaderAPI params engine max_length start_index useCache env w
  = let key := cacheKey params (default none engine) max_length start_index in
    match check_cache (default true useCache) key env w with
    | (Normal (Some result), w') => (Normal result, w')
    | (Normal None, w') =>
        call_upstream (default [] (JINA_API_KEY env)) params (default none engine)
          max_length start_index (default true useCache) key env w'
    | (Throw e, w') => (Throw e, w')
    end.
Proof.
  intros Hkey. unfold callJinaReaderAPI, mbind, M_bind, getenv_JINA_API_KEY.
  rewrite Hkey. simpl.
  destruct (check_cache _ _ env w) as [[[result|]|e] w']; done.
Qed.


End upstream_client.

(** C3.  With a credential configured, the cache in use and an entry stored
    under the key of the call: before the TTL of three hours has elapsed
    since the entry was stored, the call returns the stored payload, sends
    nothing and leaves the cache as it is; once the TTL has elapsed
    ([now - timestamp >= CACHE_TTL]) the call behaves as on a cache from
    which the entry is removed: it sends one request and returns what that
    request yields, and afterwards the cache holds under the key the fresh
    result, or nothing if the request failed. *)
Theorem cache_entry_lives_for_ttl
    (params : json) (engine : option JinaEngineType)
    (max_length start_index : option Z) (useCache : option bool)
    (env : Env) (w : World) (entry : CacheEntry) (apiKey : jsstring) :
  let key := cacheKey params (default none engine) max_length start_index in
  let call := callJinaReaderAPI params engine max_length start_index useCache env in
  let request :=
    build_request apiKey params (default none engine) max_length start_index in
  JINA_API_KEY env = Some apiKey →
  truthy_string (Some apiKey) = true →
  default true useCache = true →
  cache w !! key = Some entry →
  CACHE_TTL = 10800000
  ∧ (clock w - timestamp entry < CACHE_TTL →
     (call w).1 = Normal (data entry)
     ∧ cache (call w).2 = cache w
     ∧ sent (call w).2 = sent w)
  ∧ (CACHE_TTL <= clock w - timestamp entry →
     call w = call (with_cache (delete key (cache w)) w)
     ∧ sent (call w).2 = sent w ++ [request]
     ∧ (call w).1 = fetched env w request
     ∧ cache (call w).2
       = match (call w).1 with
         | Normal result =>
             <[key := {| data := result; timestamp := clock (call w).2 |}]>
               (delete key (cache w))
         | Throw _ => delete key (cache w)
         end).
Proof.
  intros key call request Henv Hkey Huse Hfound. split; [reflexivity|].
  assert (truthy_string (JINA_API_KEY env) = true) as Hconf by by rewrite Henv.
  unfold call. split.
  - intros Hlive. rewrite callJinaReaderAPI_configured by done. cbv zeta.
    rewrite Huse. fold key. by rewrite (check_cache_hit _ _ _ _ Hfound).
  - intros Hold. rewrite !callJinaReaderAPI_configured by done. cbv zeta.
    rewrite Huse, Henv. fold key. simpl default.
    rewrite (check_cache_expired _ _ _ _ Hfound) by done.
    rewrite check_cache_absent by apply lookup_delete_eq.
    rewrite call_upstream_spec. fold request. simpl.
    change (fetched env (with_cache (delete key (cache w)) w) request)
      with (fetched env w request).
    repeat split.
Qed.

Lemma cache_entry_lives_for_ttl_witness :
  let params := tool_params jina_read_url (lit "https://example.com") in
  let call := callJinaReaderAPI params None None None None failing_env in
  CACHE_TTL <= clock stale_world - 0
  ∧ sent (call stale_world).2
    = [build_request (lit "secret") params none None None].
Proof.
  intros params call. split; [vm_compute; discriminate|].
  apply (proj2 (proj2 (cache_entry_lives_for_ttl params None None None None
                         failing_env stale_world {| data := JNull; timestamp := 0 |}
                         (lit "secret") eq_refl eq_refl eq_refl
                         ltac:(apply lookup_singleton_eq)))).
  vm_compute. discriminate.
Defined.

(** C4.  The cache key is a function of the request, and it determines
    the request: two calls of the tools derive the same key exactly when they
    agree on the payload variant, the payload, the engine, [max_length] and
    [start_index] (given or not, and with which value). *)
Theorem cacheKey_identifies_request
    (t t' : Tool) (payload payload' : jsstring) (engine engine' : JinaEngineType)
    (max_length max_length' start_index start_index' : option Z) :
  cacheKey (tool_params t payload) engine max_length start_index
  = cacheKey (tool_params t' payload') engine' max_length' start_index'
  ↔ t = t' ∧ payload = payload' ∧ engine = engine'
    ∧ max_length = max_length' ∧ start_index = start_index'.
Proof.
  split; [apply cacheKey_inj|].
  by intros (-> & -> & -> & -> & ->).
Qed.

Lemma cacheKey_identifies_request_witness :
  cacheKey (tool_params jina_read_url (lit "https://example.com")) none (Some 100) (Some 0)
  ≠ cacheKey (tool_params jina_read_url (lit "https://example.com")) none (Some 100) (Some 100).
Proof.
  intros H. apply cacheKey_identifies_request in H as (_ & _ & _ & _ & H).
  discriminate H.
Defined.

(** C6.  Without a credential in the environment (the variable is unset or
    empty), each of the three handlers returns the text "Error:
    JINA_API_KEY not configured. ..." and changes nothing in the world: no
    request is sent. *)
Theorem missing_credential_is_reported
    (t : Tool) (args : ToolArgs) (env : Env) (w : World) :
  truthy_string (JINA_API_KEY env) = false →
  tool_handler t args env w
  = (Normal (text_result
               (lit "Error: JINA_API_KEY not configured. Please set it in your .env file.")),
     w)
  ∧ sent (tool_handler t args env w).2 = sent w.
Proof.
  intros Hkey. unfold tool_handler, try_catch, mbind, M_bind.
  by rewrite callJinaReaderAPI_not_configured.
Qed.

Lemma missing_credential_is_reported_witness :
  sent (tool_handler jina_read_pdf example_args unconfigured_env empty_world).2 = [].
Proof.
  apply (proj2 (missing_credential_is_reported jina_read_pdf example_args
                  unconfigured_env empty_world eq_refl)).
Defined.

(** C7.  A handler always returns a result, never an exception; and when
    the upstream client fails, with whatever exception, the result is the
    text "Error: " followed by the message of the exception. *)
Theorem handlers_catch_every_failure
    (t : Tool) (args : ToolArgs) (env : Env) (w w' : World) (e : exn) :
  (∃ response, (tool_handler t args env w).1 = Normal response)
  ∧ (callJinaReaderAPI (tool_params t (arg_payload args))
       (Some (default none (arg_engine args))) (arg_max_length args)
       (arg_start_index args) None env w = (Throw e, w') →
     tool_handler t args env w
     = (Normal (text_result (lit "Error: " ++ message e)), w')).
Proof.
  unfold tool_handler, try_catch, mbind, M_bind, lift. split.
  - destruct (callJinaReaderAPI _ _ _ _ _ env w) as [[result|e0] w0]; simpl; [|eauto].
    destruct (formatJinaResponse _ _ _); simpl; eauto.
  - by intros ->.
Qed.

Lemma handlers_catch_every_failure_witness :
  (tool_handler jina_read_html example_args failing_env empty_world).1
  = Normal (text_result (lit "Error: network down")).
Proof.
  refine (f_equal fst
            (proj2 (handlers_catch_every_failure jina_read_html example_args
                      failing_env empty_world
                      (callJinaReaderAPI (tool_params jina_read_html (lit "https://example.com"))
                         (Some none) None None None failing_env empty_world).2
                      (FetchError (lit "network down"))) _)).
  vm_compute. reflexivity.
Defined.


(* ================================================================== *)
(** ** Further properties of the client, the handlers and the formatter *)
(* ================================================================== *)

(** A successful call that uses the cache leaves its result under its key:
    the entry it was served from, or the one it has just stored. *)
Lemma callJinaReaderAPI_result_cached params engine max_length start_index useCache
    env w result w1 :
  truthy_string (JINA_API_KEY env) = true →
  default true useCache = true →
  callJinaReaderAPI params engine max_length start_index useCache env w
  = (Normal result, w1) →
  ∃ entry,
    cache w1 !! cacheKey params (default none engine) max_length start_index
    = Some entry
    ∧ data entry = result
    ∧ (sent w1 ≠ sent w → timestamp entry = clock w1).
Proof.
  intros Hconf Huse. rewrite callJinaReaderAPI_configured by done. cbv zeta.
  rewrite Huse. set (key := cacheKey _ _ _ _).
  assert (∀ w0, call_upstream (default [] (JINA_API_KEY env)) params
                  (default none engine) max_length start_index true key env w0
                = (Normal result, w1) →
                ∃ entry, cache w1 !! key = Some entry ∧ data entry = result
                         ∧ (sent w1 ≠ sent w → timestamp entry = clock w1)) as Hup.
  { intros w0. rewrite call_upstream_spec. unfold after_fetch.
    destruct (fetched _ _ _) as [r|]; [|done]. intros [= -> <-]. simpl.
    eexists. by rewrite lookup_insert_eq. }
  destruct (cache w !! key) as [entry|] eqn:Hfound.
  - destruct (Z.lt_ge_cases (clock w - timestamp entry) CACHE_TTL).
    + rewrite (check_cache_hit _ _ _ _ Hfound) by done. intros [= <- <-]. simpl.
      by exists entry.
    + rewrite (check_cache_expired _ _ _ _ Hfound) by done. apply Hup.
  - rewrite check_cache_absent by done. apply Hup.
Qed.

(** Within the TTL of an entry the call is served from the cache. *)
Lemma callJinaReaderAPI_hit params engine max_length start_index useCache env w entry :
  truthy_string (JINA_API_KEY env) = true →
  default true useCache = true →
  cache w !! cacheKey params (default none engine) max_length start_index = Some entry →
  clock w - timestamp entry < CACHE_TTL →
  callJinaReaderAPI params engine max_length start_index useCache env w
  = (Normal (data entry),
     {| cache := cache w; clock := clock w; sent := sent w;
        stderr := stderr w ++ [(lit "Using cached result", None)] |}).
Proof.
  intros Hconf Huse Hfound Hlive. rewrite callJinaReaderAPI_configured by done.
  cbv zeta. rewrite Huse. by rewrite (check_cache_hit _ _ _ _ Hfound).
Qed.

(** X1.  Store and lookup round trip.  When a call with the cache in use
    went upstream (it sent a request) and succeeded, the same call made in
    any later world that still holds the entry, less than the TTL after the
    first call returned, yields the same result and sends nothing. *)
Theorem stored_result_is_served_again
    (params : json) (engine : option JinaEngineType)
    (max_length start_index : option Z) (useCache : option bool)
    (env : Env) (w w1 w2 : World) (result : json) :
  let key := cacheKey params (default none engine) max_length start_index in
  let call := callJinaReaderAPI params engine max_length start_index useCache env in
  truthy_string (JINA_API_KEY env) = true →
  default true useCache = true →
  call w = (Normal result, w1) →
  sent w1 ≠ sent w →
  cache w2 !! key = cache w1 !! key →
  clock w2 - clock w1 < CACHE_TTL →
  (call w2).1 = Normal result
  ∧ sent (call w2).2 = sent w2
  ∧ cache (call w2).2 = cache w2.
Proof.
  intros key call Hconf Huse Hcall Hsent Hsame Hsoon.
  destruct (callJinaReaderAPI_result_cached _ _ _ _ _ _ _ _ _ Hconf Huse Hcall)
    as (entry & Hentry & <- & Hstamp).
  specialize (Hstamp Hsent). fold key in Hentry. rewrite <- Hsame in Hentry.
  unfold call. rewrite (callJinaReaderAPI_hit _ _ _ _ _ _ _ entry) by (done || lia).
  done.
Qed.

(** What a call does to the world, path by path. *)
Lemma callJinaReaderAPI_paths params engine max_length start_index useCache env w :
  let key := cacheKey params (default none engine) max_length start_index in
  let request :=
    build_request (default [] (JINA_API_KEY env)) params (default none engine)
      max_length start_index in
  let call := callJinaReaderAPI params engine max_length start_index useCache env w in
  (truthy_string (JINA_API_KEY env) = false ∧ call = (Throw not_configured, w))
  ∨ (truthy_string (JINA_API_KEY env) = true
     ∧ ((∃ entry, cache w !! key = Some entry
                  ∧ clock w - timestamp entry < CACHE_TTL
                  ∧ call = (Normal (data entry),
                            {| cache := cache w; clock := clock w; sent := sent w;
                               stderr := stderr w
                                           ++ [(lit "Using cached result", None)] |}))
        ∨ (∃ w0, (w0 = w ∨ w0 = with_cache (delete key (cache w)) w)
                 ∧ call = (fetched env w0 request,
                           after_fetch env w0 request (default true useCache) key)))).
Proof.
  intros key request call. unfold call.
  destruct (truthy_string (JINA_API_KEY env)) eqn:Hconf.
  2: { left. split; [done|]. by apply callJinaReaderAPI_not_configured. }
  right. split; [done|].
  rewrite callJinaReaderAPI_configured by done. cbv zeta. fold key.
  destruct (default true useCache) eqn:Huse.
  - destruct (cache w !! key) as [entry|] eqn:Hfound.
    + destruct (Z.lt_ge_cases (clock w - timestamp entry) CACHE_TTL).
      * left. exists entry. by rewrite (check_cache_hit _ _ _ _ Hfound).
      * right. exists (with_cache (delete key (cache w)) w). split; [by right|].
        rewrite (check_cache_expired _ _ _ _ Hfound) by done.
        by rewrite call_upstream_spec.
    + right. exists w. split; [by left|].
      rewrite check_cache_absent by done. by rewrite call_upstream_spec.
  - right. exists w. split; [by left|].
    rewrite check_cache_disabled. by rewrite call_upstream_spec.
Qed.

(** X2.  Failures are not cached: a call that throws adds no entry, so
    every entry of the cache afterwards was in the cache before. *)
Theorem failed_call_stores_nothing
    (params : json) (engine : option JinaEngineType)
    (max_length start_index : option Z) (useCache : option bool)
    (env : Env) (w w' : World) (e : exn) :
  callJinaReaderAPI params engine max_length start_index useCache env w
  = (Throw e, w') →
  cache w' ⊆ cache w.
Proof.
  destruct (callJinaReaderAPI_paths params engine max_length start_index useCache env w)
    as [[Hnone ->]|[Hconf [(entry & _ & _ & ->)|(w0 & Hw0 & ->)]]]; cbv zeta.
  - by intros [= _ <-].
  - done.
  - unfold after_fetch. destruct (fetched env w0 _) as [r|e0] eqn:Hf; [done|].
    intros [= _ <-]. simpl. destruct Hw0 as [->| ->]; [done|].
    simpl. apply delete_subseteq.
Qed.

(** X3.  No retries: a call sends at most one request, the one built from
    its arguments, and never alters the requests sent before. *)
Theorem at_most_one_request
    (params : json) (engine : option JinaEngineType)
    (max_length start_index : option Z) (useCache : option bool)
    (env : Env) (w : World) :
  let w' := (callJinaReaderAPI params engine max_length start_index useCache env w).2 in
  sent w' = sent w
  ∨ sent w' = sent w
               ++ [build_request (default [] (JINA_API_KEY env)) params
                     (default none engine) max_length start_index].
Proof.
  destruct (callJinaReaderAPI_paths params engine max_length start_index useCache env w)
    as [[Hnone ->]|[Hconf [(entry & _ & _ & ->)|(w0 & Hw0 & ->)]]]; cbv zeta; simpl; auto.
  right. by destruct Hw0 as [->| ->].
Qed.

(** X4.  With [useCache = false] the cache is neither read nor written:
    even when a live entry is stored under the key, the call sends its
    request, returns what the request yields and leaves the cache as it
    was. *)
Theorem useCache_false_bypasses_cache
    (params : json) (engine : option JinaEngineType)
    (max_length start_index : option Z) (env : Env) (w : World) :
  let request :=
    build_request (default [] (JINA_API_KEY env)) params (default none engine)
      max_length start_index in
  let call := callJinaReaderAPI params engine max_length start_index (Some false) env w in
  truthy_string (JINA_API_KEY env) = true →
  call.1 = fetched env w request
  ∧ sent call.2 = sent w ++ [request]
  ∧ cache call.2 = cache w.
Proof.
  intros request call Hconf. unfold call.
  rewrite callJinaReaderAPI_configured by done. cbv zeta. simpl default.
  rewrite check_cache_disabled, call_upstream_spec. fold request.
  unfold after_fetch. simpl. by destruct (fetched env w request).
Qed.

(** X10.  The cache never holds an entry from the future.  If the upstream
    exchange never takes negative time and every entry was stored at or
    before the current time, then after a call the clock has not gone back
    and every entry is still stored at or before the current time, so the
    age [now - timestamp] computed by a lookup is never negative. *)
Theorem timestamps_never_exceed_clock
    (params : json) (engine : option JinaEngineType)
    (max_length start_index : option Z) (useCache : option bool)
    (env : Env) (w : World) :
  let w' := (callJinaReaderAPI params engine max_length start_index useCache env w).2 in
  (∀ history now request, 0 <= (upstream env history now request).1) →
  map_Forall (λ _ entry, timestamp entry <= clock w) (cache w) →
  clock w <= clock w'
  ∧ map_Forall (λ _ entry, timestamp entry <= clock w') (cache w').
Proof.
  intros w' Hlatency Hinv. unfold w'.
  destruct (callJinaReaderAPI_paths params engine max_length start_index useCache env w)
    as [[Hnone ->]|[Hconf [(entry & _ & _ & ->)|(w0 & Hw0 & ->)]]]; cbv zeta; simpl.
  - split; [lia|done].
  - split; [lia|done].
  - assert (clock w0 = clock w ∧ map_Forall (λ _ entry, timestamp entry <= clock w) (cache w0))
      as [Hclock Hinv0].
    { destruct Hw0 as [->| ->]; [done|]. split; [done|].
      simpl. by apply map_Forall_delete. }
    rewrite Hclock.
    set (dt := (upstream env (sent w0) (clock w) _).1).
    assert (0 <= dt) by apply Hlatency.
    split; [lia|].
    assert (map_Forall (λ _ entry, timestamp entry <= clock w + dt) (cache w0)) as Hlater.
    { eapply map_Forall_impl; [exact Hinv0|]. simpl. intros; lia. }
    destruct (fetched env w0 _); [|done]. destruct (default true useCache); [|done].
    apply map_Forall_insert_2; [simpl; lia|done].
Qed.

(** A handler, once the client has returned: the formatted text, or the
    message of the exception the formatter throws. *)
Lemma tool_handler_after_client t args env w result w1 :
  callJinaReaderAPI (tool_params t (arg_payload args))
    (Some (default none (arg_engine args))) (arg_max_length args)
    (arg_start_index args) None env w = (Normal result, w1) →
  tool_handler t args env w
  = (Normal (text_result
               match formatJinaResponse result (arg_max_length args)
                       (Some (start_index_or_0 (arg_start_index args))) with
               | Normal text => text
               | Throw e => lit "Error: " ++ message e
               end),
     w1).
Proof.
  intros Hcall. unfold tool_handler, try_catch, mbind, M_bind, lift. rewrite Hcall.
  simpl. by destruct (formatJinaResponse _ _ _).
Qed.

(** X5.  A response with a status outside 200-299 is reported by the
    handler as the text "Error: Jina API error: " followed by the status;
    the request was sent once, the failure is logged, and nothing is
    cached. *)
Theorem http_failure_is_reported
    (t : Tool) (args : ToolArgs) (env : Env) (w : World)
    (elapsed : Z) (response : Response) :
  let engine := default none (arg_engine args) in
  let params := tool_params t (arg_payload args) in
  let key := cacheKey params engine (arg_max_length args) (arg_start_index args) in
  let request :=
    build_request (default [] (JINA_API_KEY env)) params engine
      (arg_max_length args) (arg_start_index args) in
  let failure :=
    Error (lit "Jina API error: " ++ number_to_string (status response)) in
  truthy_string (JINA_API_KEY env) = true →
  cache w !! key = None →
  upstream env (sent w) (clock w) request = (elapsed, Normal response) →
  ok response = false →
  tool_handler t args env w
  = (Normal (text_result (lit "Error: " ++ message failure)),
     {| cache := cache w; clock := clock w + elapsed;
        sent := sent w ++ [request];
        stderr := stderr w ++ [(lit "Jina Reader API call failed:", Some failure)] |}).
Proof.
  intros engine params key request failure Hconf Hmiss Hup Hstatus.
  unfold tool_handler, try_catch at 1, mbind at 1, M_bind at 1.
  rewrite callJinaReaderAPI_configured by done. cbv zeta. simpl default.
  fold engine params key. rewrite check_cache_absent by done.
  rewrite call_upstream_spec. fold request.
  unfold fetched, after_fetch, fetched. rewrite Hup. simpl. by rewrite Hstatus.
Qed.

(** X11.  A repeated tool call is answered from the cache.  When the client
    call of a handler went upstream and succeeded, the same tool call made
    less than the TTL later, in a world that still holds the entry, returns
    the same response without sending a request, whatever the upstream
    service would answer by then. *)
Theorem repeated_tool_call_is_cached
    (t : Tool) (args : ToolArgs) (env env2 : Env) (w w1 w2 : World) (result : json) :
  let engine := default none (arg_engine args) in
  let params := tool_params t (arg_payload args) in
  let key := cacheKey params engine (arg_max_length args) (arg_start_index args) in
  truthy_string (JINA_API_KEY env) = true →
  truthy_string (JINA_API_KEY env2) = true →
  callJinaReaderAPI params (Some engine) (arg_max_length args)
    (arg_start_index args) None env w = (Normal result, w1) →
  sent w1 ≠ sent w →
  cache w2 !! key = cache w1 !! key →
  clock w2 - clock w1 < CACHE_TTL →
  (tool_handler t args env2 w2).1 = (tool_handler t args env w).1
  ∧ sent (tool_handler t args env2 w2).2 = sent w2.
Proof.
  intros engine params key Hconf Hconf2 Hcall Hsent Hsame Hsoon.
  destruct (callJinaReaderAPI_result_cached params (Some engine) _ _ None env w result w1
              Hconf eq_refl Hcall)
    as (entry & Hentry & <- & Hstamp).
  specialize (Hstamp Hsent). simpl default in Hentry. fold key in Hentry.
  rewrite <- Hsame in Hentry.
  rewrite (tool_handler_after_client _ _ _ _ _ _ Hcall).
  erewrite (tool_handler_after_client t args env2 w2).
  2: { apply callJinaReaderAPI_hit; [done|done|exact Hentry|lia]. }
  done.
Qed.

(** X12.  A result that the formatter rejects is cached all the same.  When
    the client returns a value on which the formatter throws (a [null] body,
    a description that is not a string, ...), the handler answers with
    "Error: " and the message of the exception, and the value stays in the
    cache under the key of the call. *)
Theorem unrenderable_result_is_cached
    (t : Tool) (args : ToolArgs) (env : Env) (w w1 : World)
    (result : json) (e : exn) :
  let engine := default none (arg_engine args) in
  let params := tool_params t (arg_payload args) in
  let key := cacheKey params engine (arg_max_length args) (arg_start_index args) in
  truthy_string (JINA_API_KEY env) = true →
  callJinaReaderAPI params (Some engine) (arg_max_length args)
    (arg_start_index args) None env w = (Normal result, w1) →
  formatJinaResponse result (arg_max_length args)
    (Some (start_index_or_0 (arg_start_index args))) = Throw e →
  tool_handler t args env w
  = (Normal (text_result (lit "Error: " ++ message e)), w1)
  ∧ ∃ entry, cache w1 !! key = Some entry ∧ data entry = result.
Proof.
  intros engine params key Hconf Hcall Hfmt. split.
  - rewrite (tool_handler_after_client _ _ _ _ _ _ Hcall). by rewrite Hfmt.
  - destruct (callJinaReaderAPI_result_cached params (Some engine) _ _ None env w result w1
              Hconf eq_refl Hcall)
      as (entry & Hentry & Hdata & _).
    by exists entry.
Qed.

Create HintDb ends_line.

Lemma ends_with_nl_nl : ends_with_nl nl.
Proof. by exists []. Qed.

Lemma ends_with_nl_cons c s : ends_with_nl s → ends_with_nl (c :: s).
Proof. intros [pre ->]. by exists (c :: pre). Qed.

Lemma ends_with_nl_app s t : ends_with_nl t → ends_with_nl (s ++ t).
Proof. intros [pre ->]. exists (s ++ pre). by rewrite app_assoc. Qed.

Lemma ends_line_nl s : ends_with_nl s → ends_line s.
Proof. by right. Qed.

Lemma ends_line_nil : ends_line [].
Proof. by left. Qed.

#[local] Hint Resolve ends_with_nl_nl ends_with_nl_cons ends_with_nl_app
  ends_line_nl ends_line_nil : ends_line.

Lemma bind_Normal {A B} (c : completion A) (k : A → completion B) b :
  c ≫= k = Normal b → ∃ a, c = Normal a ∧ k a = Normal b.
Proof. destruct c as [a|]; [|done]. simpl. eauto. Qed.

(** One conditional append of the formatter keeps the property. *)
Lemma append_step_ends_line (b : bool) (c : completion jsstring)
    (f : jsstring → jsstring) output0 output :
  (∀ t, ends_line (f t)) →
  ends_line output0 →
  (if b then t ← c; mret (f t) else mret output0) = Normal output →
  ends_line output.
Proof.
  intros Hf H0. destruct b.
  - intros (t & _ & [= <-])%bind_Normal. apply Hf.
  - by intros [= <-].
Qed.

(** The text assembled from a payload that is present is empty or ends
    with a line break: every piece the formatter appends does. *)
Lemma assemble_payload_ends_line result data output :
  get (Some result) (lit "data") = Normal data →
  truthy data = true →
  assemble result = Normal output →
  ends_line output.
Proof.
  intros Hdata Htruthy. unfold assemble. rewrite Hdata. cbn. rewrite Htruthy.
  intros (title & _ & H)%bind_Normal.
  apply bind_Normal in H as (output1 & H1 & H).
  apply append_step_ends_line in H1; [|intros; cbn; auto 10 with ends_line..].
  apply bind_Normal in H as (description & _ & H).
  apply bind_Normal in H as (shown & _ & H).
  apply bind_Normal in H as (output2 & H2 & H).
  apply append_step_ends_line in H2; [|intros; cbn; auto 10 with ends_line..].
  apply bind_Normal in H as (content & _ & H).
  apply bind_Normal in H as (output3 & H3 & H).
  apply append_step_ends_line in H3; [|intros; cbn; auto 10 with ends_line..].
  apply bind_Normal in H as (links & _ & H).
  apply bind_Normal in H as (listed & _ & H).
  apply bind_Normal in H as (output4 & H4 & H).
  assert (ends_line output4) as H4'.
  { destruct listed; [|by injection H4 as <-].
    apply bind_Normal in H4 as (entries & _ & H4).
    apply bind_Normal in H4 as (looped & _ & [= <-]). auto with ends_line. }
  apply bind_Normal in H as (warning & _ & H).
  apply bind_Normal in H as (output5 & H5 & H).
  apply append_step_ends_line in H5; [|intros; cbn; auto 10 with ends_line..].
  apply bind_Normal in H as (usage & _ & H).
  apply bind_Normal in H as (tokens & _ & H).
  apply bind_Normal in H as (output6 & H6 & [= <-]).
  apply append_step_ends_line in H6; [done|intros; cbn; auto 10 with ends_line..].
Qed.

(** X8.  The no-content literal marks a missing payload and nothing else:
    the assembled text is the literal exactly when [result.data] is falsy.
    A payload that is present gives the empty text or a text that ends with
    a line break, which the literal does not. *)
Theorem no_content_iff_no_payload (result : json) :
  assemble result = Normal no_content ↔ no_payload result = true.
Proof.
  split; [|apply assemble_no_payload].
  unfold no_payload. intros Hout.
  destruct (get (Some result) (lit "data")) as [data|e] eqn:Hdata.
  - destruct (truthy data) eqn:Htruthy; [|done].
    destruct (assemble_payload_ends_line _ _ _ Hdata Htruthy Hout) as [H|[pre H]].
    + discriminate H.
    + apply (f_equal last) in H. unfold nl in H. rewrite last_snoc in H.
      vm_compute in H.
      discriminate H.
  - unfold assemble in Hout. rewrite Hdata in Hout. discriminate Hout.
Qed.

Lemma get_truthy v k : truthy v = true → get v k = Normal (property v k).
Proof. unfold property. by destruct v as [[]|]. Qed.

Lemma template_primitive v : is_primitive v = true → ∃ t, template v = Normal t.
Proof. destruct v as [[| [] | | | |]|]; simpl; try done; eauto. Qed.

Lemma links_loop_primitive entries : ∀ output,
  forallb (fun kv => is_primitive (Some kv.2)) entries = true →
  ∃ output', links_loop entries output = Normal output'.
Proof.
  induction entries as [|[text url] entries IH]; intros output Hall; simpl.
  - eauto.
  - apply andb_true_iff in Hall as [Hurl Hall].
    destruct (template_primitive (Some url) Hurl) as [u Hu]. simpl in Hu.
    rewrite Hu. simpl. by apply IH.
Qed.

Lemma description_shaped_primitive v :
  description_shaped v = true → is_primitive v = true.
Proof. by destruct v as [[]|]. Qed.

(** One conditional append of the formatter does not throw when the
    substitution it makes does not. *)
Lemma append_step_Normal (b : bool) (c : completion jsstring)
    (f : jsstring → jsstring) output0 :
  (∃ t, c = Normal t) →
  ∃ output, (if b then t ← c; mret (f t) else mret output0) = Normal output.
Proof. intros [t ->]. destruct b; simpl; eauto. Qed.

(** Run the next step of a computation that is known not to throw. *)
Ltac run_step :=
  match goal with
  | |- ∃ _, ?c ≫= _ = Normal _ =>
      let H := fresh "Hstep" in
      let a := fresh "output" in
      assert (∃ a, c = Normal a) as [a H]; [|rewrite H; clear H; cbn]
  end.

(** The formatter does not throw on a well-shaped payload. *)
Lemma assemble_well_shaped result :
  well_shaped result = true → ∃ output, assemble result = Normal output.
Proof.
  unfold well_shaped, assemble.
  destruct (get (Some result) (lit "data")) as [data|]; [|done]. cbn.
  destruct (truthy data) eqn:Hdata; [|eauto]. simpl negb. simpl orb.
  intros H. repeat (apply andb_true_iff in H as [H ?]).
  rewrite !(get_truthy data) by done. cbn.
  set (title := property data (lit "title")) in *.
  set (description := property data (lit "description")) in *.
  set (content := property data (lit "content")) in *.
  set (links := property data (lit "links")) in *.
  set (warning := property data (lit "warning")) in *.
  set (usage := property data (lit "usage")) in *.
  clearbody title description content links warning usage.
  run_step. { by apply append_step_Normal, template_primitive. }
  run_step.
  { destruct description as [[|[]|n|[]| |]|]; cbn in *; try done; eauto.
    destruct (n =? 0); cbn in *; try done; eauto. }
  run_step.
  { by apply append_step_Normal, template_primitive, description_shaped_primitive. }
  run_step. { by apply append_step_Normal, template_primitive. }
  assert (∀ start : jsstring,
            ∃ output,
              (warning ← Normal warning;
               output ← (if truthy warning
                         then w ← template warning;
                              mret (start ++ lit "> Warning: " ++ w ++ nl ++ nl)
                         else mret start);
               usage ← Normal usage;
               tokens ← (if truthy usage then get usage (lit "tokens") else mret usage);
               output ← (if truthy tokens
                         then t ← template tokens;
                              mret (output ++ lit "*Used " ++ t ++ lit " tokens*" ++ nl)
                         else mret output);
               mret output) = Normal output) as Hrest.
  { intros start. cbn.
    run_step. { by apply append_step_Normal, template_primitive. }
    unfold usage_shaped in *.
    destruct (truthy usage) eqn:Husage; simpl in *.
    - rewrite (get_truthy usage) by done. cbn.
      run_step. { by apply append_step_Normal, template_primitive. }
      eauto.
    - rewrite Husage. cbn. eauto. }
  destruct (truthy links) eqn:Hlinks.
  - destruct links as [j|]; [|done].
    assert (Object_entries (Some j) = Normal (own_entries j)) as Hentries.
    { by destruct j. }
    unfold Object_keys. rewrite Hentries. cbn.
    unfold links_shaped in *. rewrite Hlinks in *. simpl in *.
    run_step; [|apply Hrest].
    destruct (0 <? _); [|eauto]. cbn.
    match goal with
    | |- context [links_loop ?entries ?output] =>
        destruct (links_loop_primitive entries output) as [looped ->]; [done|]
    end.
    cbn. eauto.
  - cbn. apply Hrest.
Qed.

(** X7.  The formatter returns a text, and does not throw, on every result
    that is not [null] and whose payload, when present, has a title, a
    content and a warning that are primitive values, a description that is
    a string or falsy, links whose values are primitive, and a usage whose
    [tokens] is primitive. *)
Theorem well_shaped_result_is_rendered
    (result : json) (max_length start_index : option Z) :
  well_shaped result = true →
  ∃ text, formatJinaResponse result max_length start_index = Normal text.
Proof.
  intros [output Hout]%assemble_well_shaped.
  rewrite (formatJinaResponse_assembled _ _ _ _ Hout). eauto.
Qed.

Lemma links_loop_strings links : ∀ output,
  links_loop (map (fun link => (link.1, JStr link.2)) links) output
  = Normal (output ++ concat (map link_line links)).
Proof.
  induction links as [|[text url] links IH]; intros output; cbn.
  - by rewrite app_nil_r.
  - rewrite IH. unfold link_line. cbn. f_equal. by rewrite <- ?app_assoc.
Qed.

(** Look a property up in an object written out in the source. *)
Ltac lookup_literal :=
  repeat (first [ rewrite decide_True by reflexivity
                | rewrite decide_False by (vm_compute; discriminate) ];
          cbn).

Lemma assemble_links_only entries :
  assemble (JObj [(lit "data", JObj [(lit "links", JObj entries)])])
  = match entries with
    | [] => Normal []
    | _ => output ← links_loop entries (lit "## Links" ++ nl ++ nl);
           mret (output ++ nl)
    end.
Proof.
  unfold assemble. cbn. lookup_literal.
  destruct entries as [|entry entries]; [done|].
  by destruct (links_loop (entry :: entries) _).
Qed.

(** X9.  Links are rendered in their enumeration order, one line
    [- [text](url)] for each, under the heading [## Links] and followed by
    an empty line; a payload whose links object is empty renders nothing,
    not even the heading. *)
Theorem links_are_listed_in_order (links : list (jsstring * jsstring)) :
  assemble (JObj [(lit "data", JObj [(lit "links", links_object links)])])
  = Normal match links with
           | [] => []
           | _ => lit "## Links" ++ nl ++ nl ++ concat (map link_line links) ++ nl
           end.
Proof.
  unfold links_object. rewrite assemble_links_only.
  destruct links as [|link links]; [done|].
  rewrite links_loop_strings. cbn. by rewrite <- !app_assoc.
Qed.

Lemma trim_start_nil s : trim_start s = [] ↔ forallb is_whitespace s = true.
Proof.
  induction s as [|c s IH]; simpl; [done|].
  destruct (is_whitespace c); simpl; [done|]. split; discriminate.
Qed.

Lemma trim_start_all_whitespace s :
  forallb is_whitespace (trim_start s) = true → trim_start s = [].
Proof.
  induction s as [|c s IH]; simpl; [done|].
  destruct (is_whitespace c) eqn:Hc; simpl; [done|]. by rewrite Hc.
Qed.

Lemma forallb_rev {A} (p : A → bool) l : forallb p (rev l) = forallb p l.
Proof.
  induction l as [|x l IH]; simpl; [done|].
  rewrite forallb_app, IH. simpl. by rewrite andb_true_r, andb_comm.
Qed.

(** [trim] leaves nothing exactly of the strings of white space. *)
Lemma trim_nil s : trim s = [] ↔ forallb is_whitespace s = true.
Proof.
  unfold trim. rewrite <- trim_start_nil. split.
  - intros H. apply (f_equal (@rev N)) in H. rewrite rev_involutive in H.
    simpl in H. apply trim_start_nil in H. rewrite forallb_rev in H.
    by apply trim_start_all_whitespace.
  - intros ->. done.
Qed.

(** X13.  A description is rendered exactly when it has a character that
    is not white space, and then as it is, not trimmed, followed by an empty
    line; a description of white space only renders nothing. *)
Theorem description_is_rendered_untrimmed (description : jsstring) :
  assemble (JObj [(lit "data", JObj [(lit "description", JStr description)])])
  = Normal (if forallb is_whitespace description then []
            else description ++ nl ++ nl).
Proof.
  unfold assemble. cbn. lookup_literal.
  destruct description as [|c s]; [done|]. cbn -[trim forallb].
  destruct (forallb is_whitespace (c :: s)) eqn:Hws.
  - apply trim_nil in Hws. by rewrite Hws.
  - destruct (trim (c :: s)) eqn:Htrim; [|done].
    apply trim_nil in Htrim. congruence.
Qed.

(** The body of the request of a tool call: the payload, then the length
    parameters that are given. *)
Lemma request_body_shape apiKey t u e m s :
  body (build_request apiKey (tool_params t u) e m s)
  = 123%N :: quote (payload_name t)
      ++ 58%N :: 34%N :: quote_body u
      ++ 34%N :: key_field (lit "max_length") m
      ++ key_field (lit "start_index") s ++ [125%N].
Proof.
  unfold build_request, request_params, tool_params, key_field. cbn [body spread own_entries].
  destruct t, m, s; cbn [set_property payload_name];
    repeat rewrite decide_False by (vm_compute; discriminate);
    cbn [set_property]; simpl; repeat (rewrite <- ?app_assoc; simpl); reflexivity.
Qed.

Lemma request_body_inj apiKey t u e m s apiKey' t' u' e' m' s' :
  body (build_request apiKey (tool_params t u) e m s)
  = body (build_request apiKey' (tool_params t' u') e' m' s') →
  t = t' ∧ u = u' ∧ m = m' ∧ s = s'.
Proof.
  rewrite !request_body_shape. intros H.
  assert (t = t' ∧ quote_body u ++ 34%N :: key_field (lit "max_length") m
                     ++ key_field (lit "start_index") s ++ [125%N]
                   = quote_body u' ++ 34%N :: key_field (lit "max_length") m'
                       ++ key_field (lit "start_index") s' ++ [125%N]) as [-> H'].
  { revert H. generalize (quote_body u ++ 34%N :: key_field (lit "max_length") m
                            ++ key_field (lit "start_index") s ++ [125%N]).
    generalize (quote_body u' ++ 34%N :: key_field (lit "max_length") m'
                  ++ key_field (lit "start_index") s' ++ [125%N]).
    intros x' x H. destruct t, t'; unfold payload_name in H; eval_literals H;
      by simplify_eq. }
  apply quote_body_delimited in H' as [-> H'].
  by apply key_fields_inj in H' as [-> ->].
Qed.

Lemma request_headers_inj apiKey e e' :
  request_headers apiKey e = request_headers apiKey e' → e = e'.
Proof.
  destruct e, e'; try done; intros H; vm_compute in H; by simplify_eq.
Qed.

(** X6.  The cache key identifies the request exactly.  For one
    credential, two tool calls build the same upstream request if and only
    if they derive the same cache key: an entry is never served to a call
    that would have sent a different request, and two calls that would send
    the same request never use two entries. *)
Theorem cacheKey_matches_request
    (apiKey : jsstring) (t t' : Tool) (payload payload' : jsstring)
    (engine engine' : JinaEngineType)
    (max_length max_length' start_index start_index' : option Z) :
  build_request apiKey (tool_params t payload) engine max_length start_index
  = build_request apiKey (tool_params t' payload') engine' max_length' start_index'
  ↔ cacheKey (tool_params t payload) engine max_length start_index
    = cacheKey (tool_params t' payload') engine' max_length' start_index'.
Proof.
  split.
  - intros H.
    pose proof (f_equal headers H) as Hh. apply request_headers_inj in Hh as ->.
    pose proof (f_equal body H) as Hb.
    by apply request_body_inj in Hb as (-> & -> & -> & ->).
  - by intros (-> & -> & -> & -> & ->)%cacheKey_inj.
Qed.

Lemma stored_result_is_served_again_witness :
  let call := callJinaReaderAPI example_params None None None None ok_env in
  let w1 := (call empty_world).2 in
  sent w1 ≠ sent empty_world
  ∧ (call (later 1000 w1)).1 = (call empty_world).1
  ∧ sent (call (later 1000 w1)).2 = sent w1.
Proof.
  intros call w1. split; [vm_compute; discriminate|].
  destruct (stored_result_is_served_again example_params None None None None ok_env
              empty_world w1 (later 1000 w1)
              (JObj [(lit "data", JObj [(lit "content", JStr (lit "hi"))])]))
    as (Hresult & Hsent & _);
    [reflexivity|reflexivity|vm_compute; reflexivity|vm_compute; discriminate
    |reflexivity|vm_compute; reflexivity|].
  split; [exact Hresult|exact Hsent].
Defined.

Lemma failed_call_stores_nothing_witness :
  cache (callJinaReaderAPI example_params None None None None failing_env
           empty_world).2 ⊆ cache empty_world.
Proof.
  apply (failed_call_stores_nothing example_params None None None None failing_env
           empty_world _ (FetchError (lit "network down"))).
  vm_compute. reflexivity.
Defined.

Lemma useCache_false_bypasses_cache_witness :
  let call :=
    callJinaReaderAPI example_params None None None (Some false) ok_env stale_world in
  sent call.2 = [build_request (lit "secret") example_params none None None]
  ∧ cache call.2 = cache stale_world.
Proof.
  intros call.
  apply (proj2 (useCache_false_bypasses_cache example_params None None None ok_env
                  stale_world eq_refl)).
Defined.

Lemma timestamps_never_exceed_clock_witness :
  let w' := (callJinaReaderAPI example_params None None None None ok_env
               empty_world).2 in
  clock empty_world <= clock w'
  ∧ map_Forall (λ _ entry, timestamp entry <= clock w') (cache w').
Proof.
  apply (timestamps_never_exceed_clock example_params None None None None ok_env
           empty_world).
  - intros history now request. simpl. lia.
  - apply map_Forall_empty.
Defined.

Lemma http_failure_is_reported_witness :
  (tool_handler jina_read_url example_args not_found_env empty_world).1
  = Normal (text_result (lit "Error: " ++ lit "Jina API error: " ++ number_to_string 404)).
Proof.
  exact (f_equal fst
           (http_failure_is_reported jina_read_url example_args not_found_env
              empty_world 0 {| status := 404; json_result := Normal JNull |}
              eq_refl (lookup_empty _) eq_refl eq_refl)).
Defined.

Lemma repeated_tool_call_is_cached_witness :
  let w1 := (callJinaReaderAPI example_params (Some none) None None None ok_env
               empty_world).2 in
  (tool_handler jina_read_url example_args failing_env (later 1000 w1)).1
  = (tool_handler jina_read_url example_args ok_env empty_world).1
  ∧ sent (tool_handler jina_read_url example_args failing_env (later 1000 w1)).2
    = sent w1.
Proof.
  intros w1.
  apply (repeated_tool_call_is_cached jina_read_url example_args ok_env failing_env
           empty_world w1 (later 1000 w1)
           (JObj [(lit "data", JObj [(lit "content", JStr (lit "hi"))])]));
    [reflexivity|reflexivity|vm_compute; reflexivity|vm_compute; discriminate
    |reflexivity|vm_compute; reflexivity].
Defined.

Lemma unrenderable_result_is_cached_witness :
  (tool_handler jina_read_url example_args null_env empty_world).1
  = Normal (text_result
              (lit "Error: " ++ lit "Cannot read properties of null (reading 'data')")).
Proof.
  refine (f_equal fst
            (proj1 (unrenderable_result_is_cached jina_read_url example_args null_env
                      empty_world
                      (callJinaReaderAPI example_params (Some none) None None None
                         null_env empty_world).2
                      JNull
                      (TypeError (lit "Cannot read properties of null (reading 'data')"))
                      eq_refl _ eq_refl))).
  vm_compute. reflexivity.
Defined.

Lemma well_shaped_result_is_rendered_witness :
  ∃ text,
    formatJinaResponse
      (JObj [(lit "data",
              JObj [(lit "title", JStr (lit "T")); (lit "usage", JObj [(lit "tokens", JNum 7)])])])
      (Some 5) None
    = Normal text.
Proof.
  apply well_shaped_result_is_rendered. vm_compute. reflexivity.
Defined.

Lemma no_content_iff_no_payload_witness :
  assemble (JObj [(lit "data", JNum 0)]) = Normal no_content.
Proof. apply no_content_iff_no_payload. reflexivity. Defined.

Lemma cacheKey_matches_request_witness :
  build_request (lit "secret") example_params none None None
  ≠ build_request (lit "secret") example_params direct None None.
Proof.
  intros H. apply cacheKey_matches_request in H.
  apply cacheKey_inj in H as (_ & _ & H & _). discriminate H.
Defined.

(** X14.  A call throws in two ways only.  Without a credential it throws
    before anything happens: the world is unchanged.  With a credential, a
    thrown failure is always the failure of the one request the call has
    sent, and it is logged once by [console.error] before it is thrown
    again. *)
Theorem thrown_failure_is_logged
    (params : json) (engine : option JinaEngineType)
    (max_length start_index : option Z) (useCache : option bool)
    (env : Env) (w w' : World) (e : exn) :
  let request :=
    build_request (default [] (JINA_API_KEY env)) params (default none engine)
      max_length start_index in
  callJinaReaderAPI params engine max_length start_index useCache env w
  = (Throw e, w') →
  (truthy_string (JINA_API_KEY env) = false ∧ e = not_configured ∧ w' = w)
  ∨ (truthy_string (JINA_API_KEY env) = true
     ∧ sent w' = sent w ++ [request]
     ∧ stderr w' = stderr w ++ [(lit "Jina Reader API call failed:", Some e)]).
Proof.
  intros request.
  destruct (callJinaReaderAPI_paths params engine max_length start_index useCache env w)
    as [[Hnone ->]|[Hconf [(entry & _ & _ & ->)|(w0 & Hw0 & ->)]]]; cbv zeta.
  - intros [= <- <-]. by left.
  - done.
  - fold request. unfold after_fetch.
    destruct (fetched env w0 request) as [r|e0] eqn:Hf; [done|].
    intros [= <- <-]. right. simpl. by destruct Hw0 as [->| ->].
Qed.

Lemma thrown_failure_is_logged_witness :
  stderr (callJinaReaderAPI example_params None None None None failing_env
            empty_world).2
  = [(lit "Jina Reader API call failed:", Some (FetchError (lit "network down")))].
Proof.
  destruct (thrown_failure_is_logged example_params None None None None failing_env
              empty_world
              (callJinaReaderAPI example_params None None None None failing_env
                 empty_world).2
              (FetchError (lit "network down")))
    as [(Hconf & _)|(_ & _ & Hlog)];
    [vm_compute; reflexivity|discriminate Hconf|exact Hlog].
Defined.
